(** * A shallow embedding of neural_sp's training utilities and CSJ scorer

    Sources:
    - [neural_sp/bin/train_utils.py]: [Reporter], [Controller],
      [load_config] and [set_logger];
    - [examples/csj/s5/exp/metrics/cer.py]: [do_eval_cer];
    - [examples/csj/data/load_dataset.py]: [Dataset.__init__].

    Python floats are modelled as real numbers (the learning-rate code)
    or as rationals (the error-rate tallies, which are sums of integer
    counts); the Reporter, which has to represent [inf], uses a small
    extended-real type. Raised exceptions are the [Raise] case of
    [result]. *)

From Stdlib Require Import QArith ZArith Reals Lra Lia.
From Stdlib Require Import Strings.String Strings.Ascii Sorting.Sorted Sorting.Permutation.
From stdpp Require Import base gmap strings list.

(** ** Python prelude: exceptions and the error monad *)

Inductive pyexc :=
  | ZeroDivisionError
  | KeyError
  | ValueError
  | UnboundLocalError
  | AssertionError.

Inductive result (A : Type) :=
  | Ok (a : A)
  | Raise (e : pyexc).
Arguments Ok {A} a.
Arguments Raise {A} e.

Global Instance result_ret : MRet result := fun _ x => Ok x.
Global Instance result_bind : MBind result :=
  fun _ _ k m => match m with Ok x => k x | Raise e => Raise e end.

Definition is_ok {A} (r : result A) : bool :=
  match r with Ok _ => true | Raise _ => false end.

(** ** do_eval_cer (examples/csj/s5/exp/metrics/cer.py) *)

Module Cer.

Section Cer.

(** Characters of a Python [str]; the scorer only compares them. *)
Variable ch : Type.
Variable ch_eqb : ch -> ch -> bool.
Variables at_sign gt_sign underscore : ch.

(** [compute_wer] of [utils.evaluation.edit_distance] (not part of this
    file's sources): on success it returns [(err, sub, ins, del)]; [None]
    stands for an exception, which [do_eval_cer] swallows with a bare
    [except: pass]. A Python list of characters [list(s)] is a list of
    one-character strings. *)
Variable compute_wer : list (list ch) -> list (list ch) -> option (Q * Q * Q * Q).

Definition str := list ch.

(** [re.sub(r'[@>]+', '', s)] *)
Definition remove_garbage (s : str) : str :=
  List.filter (fun c => negb (ch_eqb c at_sign || ch_eqb c gt_sign)) s.

(** [re.sub(r'[_]+', '_', s)]; [prev_us] says the previous character
    kept was an underscore of the current run. *)
Fixpoint collapse_us_from (prev_us : bool) (s : str) : str :=
  match s with
  | [] => []
  | c :: s' =>
      if ch_eqb c underscore then
        if prev_us then collapse_us_from true s'
        else c :: collapse_us_from true s'
      else c :: collapse_us_from false s'
  end.
Definition collapse_us (s : str) : str := collapse_us_from false s.

(** [s.split('>')[0]]: the prefix before the first ['>']. *)
Fixpoint truncate_eos (s : str) : str :=
  match s with
  | [] => []
  | c :: s' => if ch_eqb c gt_sign then [] else c :: truncate_eos s'
  end.

(** [s.split(sep)] (Python keeps empty parts; the result is never empty). *)
Fixpoint split_on (sep : ch) (s : str) : list str :=
  match s with
  | [] => [[]]
  | c :: s' =>
      if ch_eqb c sep then [] :: split_on sep s'
      else match split_on sep s' with
           | w :: ws => (c :: w) :: ws
           | [] => [[c]]
           end
  end.

(** [s.replace('_', '')] *)
Definition remove_us (s : str) : str :=
  List.filter (fun c => negb (ch_eqb c underscore)) s.

(** [list(s)] *)
Definition chars_of (s : str) : list str := map (fun c => [c]) s.

Local Open Scope Q_scope.

(** The accumulators of one evaluation pass. *)
Record tally := {
  t_cer : Q; t_wer : Q;
  t_sub_char : Q; t_ins_char : Q; t_del_char : Q;
  t_sub_word : Q; t_ins_word : Q; t_del_word : Q;
  t_num_words : Z; t_num_chars : Z }.

Definition tally0 : tally :=
  {| t_cer := 0; t_wer := 0;
     t_sub_char := 0; t_ins_char := 0; t_del_char := 0;
     t_sub_word := 0; t_ins_word := 0; t_del_word := 0;
     t_num_words := 0; t_num_chars := 0 |}.

(** The WER block of the loop body: [try: ... except: pass]. *)
Definition add_word (t : tally) (str_ref str_hyp : str) : tally :=
  match compute_wer (split_on underscore str_ref) (split_on underscore str_hyp) with
  | Some (wer_b, sub_b, ins_b, del_b) =>
      {| t_cer := t_cer t; t_wer := t_wer t + wer_b;
         t_sub_char := t_sub_char t; t_ins_char := t_ins_char t;
         t_del_char := t_del_char t;
         t_sub_word := t_sub_word t + sub_b; t_ins_word := t_ins_word t + ins_b;
         t_del_word := t_del_word t + del_b;
         t_num_words := t_num_words t + Z.of_nat (length (split_on underscore str_ref));
         t_num_chars := t_num_chars t |}
  | None => t
  end.

(** The CER block of the loop body: [try: ... except: pass]. *)
Definition add_char (t : tally) (str_ref str_hyp : str) : tally :=
  match compute_wer (chars_of (remove_us str_ref)) (chars_of (remove_us str_hyp)) with
  | Some (cer_b, sub_b, ins_b, del_b) =>
      {| t_cer := t_cer t + cer_b; t_wer := t_wer t;
         t_sub_char := t_sub_char t + sub_b; t_ins_char := t_ins_char t + ins_b;
         t_del_char := t_del_char t + del_b;
         t_sub_word := t_sub_word t; t_ins_word := t_ins_word t;
         t_del_word := t_del_word t;
         t_num_words := t_num_words t;
         t_num_chars := t_num_chars t + Z.of_nat (length (remove_us str_ref)) |}
  | None => t
  end.

(** One utterance [b] of a batch, from the decoded reference and
    hypothesis strings ([idx2char] output). [word_level] is the test
    [dataset.label_type == 'kanji_wb' or (task_index > 0 and
    dataset.label_type_sub == 'kanji_wb')]; [attention] is
    ['attention' in model.model_type]. *)
Definition score_utt (word_level attention : bool) (t : tally)
    (ref hyp : str) : tally :=
  let str_hyp := if attention then truncate_eos hyp else hyp in
  let str_ref := remove_garbage ref in
  let str_hyp := remove_garbage str_hyp in
  let str_ref := collapse_us str_ref in
  let str_hyp := collapse_us str_hyp in
  let t := if word_level then add_word t str_ref str_hyp else t in
  add_char t str_ref str_hyp.

(** Python's [x / n] with [n] an [int]: [ZeroDivisionError] at [n = 0]. *)
Definition py_div (x : Q) (n : Z) : result Q :=
  if Z.eqb n 0 then Raise ZeroDivisionError else Ok (x / inject_Z n)%Q.

(** The returned data frame: rows CER and WER, columns SUB, INS, DEL. *)
Record df_wer_cer := {
  df_sub : Q * Q; df_ins : Q * Q; df_del : Q * Q }.

(** The [while True] loop of [do_eval_cer] over one pass of the
    dataset: [utts] are the (reference, hypothesis) strings of every
    utterance read between the two [dataset.reset()] calls, in order. *)
Definition pass_tally (word_level attention : bool) (utts : list (str * str))
    : tally :=
  fold_left (fun t u => score_utt word_level attention t u.1 u.2) utts tally0.

(** [do_eval_cer]: the pass, then the final divisions. Returns
    [(cer, wer, df)]. *)
Definition do_eval_cer (word_level attention : bool)
    (utts : list (str * str)) : result (Q * Q * df_wer_cer) :=
  let t := pass_tally word_level attention utts in
  wsum ← (if word_level then
            wer ← py_div (t_wer t) (t_num_words t);
            sub_word ← py_div (t_sub_word t) (t_num_words t);
            ins_word ← py_div (t_ins_word t) (t_num_words t);
            del_word ← py_div (t_del_word t) (t_num_words t);
            mret (wer, sub_word, ins_word, del_word)
          else mret (0, 0, 0, 0)%Q);
  let '(wer, sub_word, ins_word, del_word) := wsum in
  cer ← py_div (t_cer t) (t_num_chars t);
  sub_char ← py_div (t_sub_char t) (t_num_chars t);
  ins_char ← py_div (t_ins_char t) (t_num_chars t);
  del_char ← py_div (t_del_char t) (t_num_chars t);
  mret (cer, wer,
        {| df_sub := (sub_char * 100, sub_word * 100);
           df_ins := (ins_char * 100, ins_word * 100);
           df_del := (del_char * 100, del_word * 100) |})%Q.

End Cer.

End Cer.

(** ** Controller (neural_sp/bin/train_utils.py) *)

Module Controller.

Local Open Scope R_scope.

(** Values held in a torch parameter group ([param_group] is a dict):
    the floats the controller writes, and every other entry (the
    parameter list, momentum settings, ...), which it never inspects. *)
Inductive pyval :=
  | PFloat (r : R)
  | PObj (tag : string).

(** The optimizer object the controller mutates: its class test
    [isinstance(optimizer, torch.optim.Adadelta)] and its
    [param_groups]. *)
Record optimizer := {
  is_adadelta : bool;
  param_groups : list (gmap string pyval) }.

(** [for param_group in optimizer.param_groups: param_group[key] = lr] *)
Definition set_groups (key : string) (lr : R) (opt : optimizer) : optimizer :=
  {| is_adadelta := is_adadelta opt;
     param_groups := map (fun g => <[key := PFloat lr]> g) (param_groups opt) |}.

(** [np.power(x, y)] for [x > 0]. For [x = 0] and [y < 0] numpy returns
    [inf]; the only such use below is [np.power(step, -0.5)] at [step = 0],
    inside [np.min([inf, 0.0]) = 0.0], and Rpower's convention
    [Rpower 0 y = 1] gives the same minimum there. *)
Definition np_power (x y : R) : R := Rpower x y.

(** Python's float division [x / y]: [ZeroDivisionError] at [y = 0]. *)
Definition py_fdiv (x y : R) : result R :=
  if Req_dec_T y 0 then Raise ZeroDivisionError else Ok (x / y).

(** The attributes of a [Controller] object. *)
Record controller := {
  lr_max : R;
  decay_type : string;
  decay_start_epoch : Z;
  decay_rate : R;
  decay_patient_epoch : Z;
  not_improved_epoch : Z;
  lower_better : bool;
  best_value : R;
  lr_init : R;
  warmup_start_lr : R;
  warmup_nsteps : Z }.

(** [Controller.__init__]; the defaults of the source are
    [decay_patient_epoch=1, lower_better=True, best_value=10000,
    model_size=1, warmup_start_learning_rate=0, warmup_nsteps=4000,
    factor=1]. *)
Definition init (learning_rate : R) (decay_type : string)
    (decay_start_epoch : Z) (decay_rate : R) (decay_patient_epoch : Z)
    (lower_better : bool) (best_value : R) (model_size : R)
    (warmup_start_learning_rate : R) (warmup_nsteps : Z) (factor : R)
    : result controller :=
  let lr_init :=
    if Z.ltb 0 warmup_nsteps then
      if Rlt_dec 0 warmup_start_learning_rate then warmup_start_learning_rate
      else factor * np_power model_size (-0.5)
    else learning_rate in
  let c := {| lr_max := learning_rate;
              decay_type := decay_type;
              decay_start_epoch := decay_start_epoch;
              decay_rate := decay_rate;
              decay_patient_epoch := decay_patient_epoch;
              not_improved_epoch := 0;
              lower_better := lower_better;
              best_value := best_value;
              lr_init := lr_init;
              warmup_start_lr := warmup_start_learning_rate;
              warmup_nsteps := warmup_nsteps |} in
  if String.eqb decay_type "warmup" then
    if Z.ltb 0 warmup_nsteps then Ok c else Raise AssertionError
  else Ok c.

Definition set_best (c : controller) (v : R) : controller :=
  {| lr_max := lr_max c; decay_type := decay_type c;
     decay_start_epoch := decay_start_epoch c; decay_rate := decay_rate c;
     decay_patient_epoch := decay_patient_epoch c;
     not_improved_epoch := not_improved_epoch c;
     lower_better := lower_better c; best_value := v;
     lr_init := lr_init c; warmup_start_lr := warmup_start_lr c;
     warmup_nsteps := warmup_nsteps c |}.

Definition set_not_improved (c : controller) (n : Z) : controller :=
  {| lr_max := lr_max c; decay_type := decay_type c;
     decay_start_epoch := decay_start_epoch c; decay_rate := decay_rate c;
     decay_patient_epoch := decay_patient_epoch c;
     not_improved_epoch := n;
     lower_better := lower_better c; best_value := best_value c;
     lr_init := lr_init c; warmup_start_lr := warmup_start_lr c;
     warmup_nsteps := warmup_nsteps c |}.

(** The controller with its [lower_better] attribute replaced. *)
Definition set_lower_better (c : controller) (b : bool) : controller :=
  {| lr_max := lr_max c; decay_type := decay_type c;
     decay_start_epoch := decay_start_epoch c; decay_rate := decay_rate c;
     decay_patient_epoch := decay_patient_epoch c;
     not_improved_epoch := not_improved_epoch c;
     lower_better := b; best_value := best_value c;
     lr_init := lr_init c; warmup_start_lr := warmup_start_lr c;
     warmup_nsteps := warmup_nsteps c |}.

(** The field a decayed rate is written to. *)
Definition lr_key (opt : optimizer) : string :=
  if is_adadelta opt then "eps" else "lr".

(** [Controller.decay_lr(optimizer, lr, epoch, value)]: the new controller
    attributes, the (mutated) optimizer and the returned [lr]. *)
Definition decay_lr (c : controller) (opt : optimizer) (lr : R) (epoch : Z)
    (value : R) : controller * optimizer * R :=
  let value := if lower_better c then value else value * -1 in
  if Z.ltb epoch (decay_start_epoch c) then
    if String.eqb (decay_type c) "metric" then
      if Rlt_dec value (best_value c) then (set_best c value, opt, lr)
      else (c, opt, lr)
    else (c, opt, lr)
  else
    if String.eqb (decay_type c) "metric" then
      if Rlt_dec value (best_value c) then
        (set_not_improved (set_best c value) 0, opt, lr)
      else if Z.ltb (not_improved_epoch c) (decay_patient_epoch c) then
        (set_not_improved c (not_improved_epoch c + 1), opt, lr)
      else
        let lr := lr * decay_rate c in
        (set_not_improved c 0, set_groups (lr_key opt) lr opt, lr)
    else if String.eqb (decay_type c) "epoch" then
      let lr := lr * decay_rate c in
      (c, set_groups (lr_key opt) lr opt, lr)
    else (c, opt, lr).

(** [Controller.warmup_lr(optimizer, lr, step)]; the controller's
    attributes are not changed. *)
Definition warmup_lr (c : controller) (opt : optimizer) (lr : R) (step : Z)
    : result (optimizer * R) :=
  lr ← (if Rlt_dec 0 (warmup_start_lr c) then
          slope ← py_fdiv (lr_max c - warmup_start_lr c) (IZR (warmup_nsteps c));
          mret (slope * IZR step + lr_init c)
        else
          mret (lr_init c * Rmin (np_power (IZR step) (-0.5))
                                 (IZR step * np_power (IZR (warmup_nsteps c)) (-1.5))));
  mret (set_groups "lr" lr opt, lr).

(** A training loop calling [decay_lr] once per epoch with
    [(epoch, value)], feeding each returned [lr] to the next call. *)
Fixpoint run_decay (c : controller) (opt : optimizer) (lr : R)
    (evs : list (Z * R)) : controller * optimizer * R :=
  match evs with
  | [] => (c, opt, lr)
  | (epoch, value) :: evs' =>
      let '(c', opt', lr') := decay_lr c opt lr epoch value in
      run_decay c' opt' lr' evs'
  end.

End Controller.

(** ** Reporter (neural_sp/bin/train_utils.py) *)

Module Reporter.

Local Open Scope R_scope.

(** A Python float as far as [Reporter.add] needs it: finite values,
    the two infinities and nan. *)
Inductive pyfloat :=
  | Fin (r : R)
  | PosInf
  | NegInf
  | NaN.

(** IEEE addition. *)
Definition fadd (x y : pyfloat) : pyfloat :=
  match x, y with
  | NaN, _ | _, NaN => NaN
  | PosInf, NegInf | NegInf, PosInf => NaN
  | PosInf, _ | _, PosInf => PosInf
  | NegInf, _ | _, NegInf => NegInf
  | Fin a, Fin b => Fin (a + b)
  end.

(** Division by a positive element count. *)
Definition fdiv_count (x : pyfloat) (n : nat) : pyfloat :=
  match x with
  | Fin a => Fin (a / INR n)
  | _ => x
  end.

(** [np.mean(l)]: the sum divided by the length; [nan] (with a numpy
    RuntimeWarning, not an exception) for an empty list. *)
Definition np_mean (l : list pyfloat) : pyfloat :=
  match l with
  | [] => NaN
  | _ => fdiv_count (fold_left fadd l (Fin 0)) (length l)
  end.

(** [v == float("inf") or v == -float("inf")] *)
Definition is_inf (v : pyfloat) : bool :=
  match v with PosInf | NegInf => true | _ => false end.

(** [s.split('.')] (empty parts kept). *)
Fixpoint split_dot (s : string) : list string :=
  match s with
  | EmptyString => [EmptyString]
  | String c s' =>
      if Ascii.eqb c "."%char then EmptyString :: split_dot s'
      else match split_dot s' with
           | w :: ws => String c w :: ws
           | [] => [String c EmptyString]
           end
  end.

(** What the reporter writes to the [training] logger. *)
Inductive log_entry :=
  | LogWarning (msg : string)
  | LogInfoTrainMean (k : string) (m : pyfloat)
  | LogInfoDev (k : string) (v : pyfloat).

(** The [obs_*] dicts: category -> metric name -> list of values. *)
Abbreviation obs := (gmap string (gmap string (list pyfloat))).

(** [{'loss': {}, 'acc': {}, 'ppl': {}}] *)
Definition empty_obs : obs :=
  <["loss" := ∅]> (<["acc" := ∅]> (<["ppl" := ∅]> ∅)).

(** The attributes of a [Reporter] object; [tb_events] are the
    [tf_writer.add_scalar(tag, value, step)] calls made so far and [log]
    the logger records. *)
Record reporter := {
  tensorboard : bool;
  _step : Z;
  obs_train : obs;
  obs_train_local : obs;
  obs_dev : obs;
  steps : list Z;
  log : list log_entry;
  tb_events : list (string * pyfloat * Z) }.

(** [Reporter.__init__] (the [SummaryWriter] is represented by
    [tb_events]). *)
Definition init (tensorboard : bool) : reporter :=
  {| tensorboard := tensorboard; _step := 0;
     obs_train := empty_obs; obs_train_local := empty_obs;
     obs_dev := empty_obs; steps := []; log := []; tb_events := [] |}.

(** A method call on the reporter: it mutates the object and either
    returns or raises; the mutations made before a raise persist. *)
Definition M (A : Type) := reporter -> reporter * result A.

Global Instance M_ret : MRet M := fun _ x st => (st, Ok x).
Global Instance M_bind : MBind M :=
  fun _ _ k m st =>
    match m st with
    | (st', Ok x) => k x st'
    | (st', Raise e) => (st', Raise e)
    end.

Definition get : M reporter := fun st => (st, Ok st).
Definition modify (f : reporter -> reporter) : M unit := fun st => (f st, Ok tt).
Definition throw {A} (e : pyexc) : M A := fun st => (st, Raise e).

(** [d[k]] *)
Definition getitem {V} (m : gmap string V) (k : string) : M V :=
  match m !! k with Some v => mret v | None => throw KeyError end.

Definition with_train (f : obs -> obs) (st : reporter) : reporter :=
  {| tensorboard := tensorboard st; _step := _step st;
     obs_train := f (obs_train st); obs_train_local := obs_train_local st;
     obs_dev := obs_dev st; steps := steps st; log := log st;
     tb_events := tb_events st |}.
Definition with_local (f : obs -> obs) (st : reporter) : reporter :=
  {| tensorboard := tensorboard st; _step := _step st;
     obs_train := obs_train st; obs_train_local := f (obs_train_local st);
     obs_dev := obs_dev st; steps := steps st; log := log st;
     tb_events := tb_events st |}.
Definition with_dev (f : obs -> obs) (st : reporter) : reporter :=
  {| tensorboard := tensorboard st; _step := _step st;
     obs_train := obs_train st; obs_train_local := obs_train_local st;
     obs_dev := f (obs_dev st); steps := steps st; log := log st;
     tb_events := tb_events st |}.
Definition emit (e : log_entry) (st : reporter) : reporter :=
  {| tensorboard := tensorboard st; _step := _step st;
     obs_train := obs_train st; obs_train_local := obs_train_local st;
     obs_dev := obs_dev st; steps := steps st; log := log st ++ [e];
     tb_events := tb_events st |}.
Definition emit_tb (ev : string * pyfloat * Z) (st : reporter) : reporter :=
  {| tensorboard := tensorboard st; _step := _step st;
     obs_train := obs_train st; obs_train_local := obs_train_local st;
     obs_dev := obs_dev st; steps := steps st; log := log st;
     tb_events := tb_events st ++ [ev] |}.

(** [if name not in d[category].keys(): d[category][name] = []] *)
Definition ensure_name (category name : string) (cat : gmap string (list pyfloat))
    (d : obs) : obs :=
  match cat !! name with
  | Some _ => d
  | None => <[category := <[name := []]> cat]> d
  end.

(** [d[category][name].append(v)], once [d[category][name]] exists. *)
Definition append_value (category name : string) (v : pyfloat) (d : obs) : obs :=
  match d !! category with
  | Some cat =>
      <[category := <[name := default [] (cat !! name) ++ [v]]> cat]> d
  | None => d
  end.

Definition inf_warning (k : string) : string :=
  String.append "WARNING: received an inf loss for " (String.append k ".").

(** [if v == float("inf") or v == -float("inf"): logger.warning(...)] *)
Definition warned (k : string) (v : pyfloat) (st : reporter) : reporter :=
  if is_inf v then emit (LogWarning (inf_warning k)) st else st.

(** The body of the [for k, v in observation.items()] loop of
    [Reporter.add], for an entry whose value is not [None]. *)
Definition add_entry (is_eval : bool) (k : string) (v : pyfloat) : M unit :=
  match split_dot k with
  | [category; name] =>
      _ ← modify (warned k v);
      st ← get;
      if negb is_eval then
        local_cat ← getitem (obs_train_local st) category;
        _ ← modify (with_local (ensure_name category name local_cat));
        modify (with_local (append_value category name v))
      else
        train_cat ← getitem (obs_train st) category;
        _ ← modify (with_train (ensure_name category name train_cat));
        st ← get;
        train_cat ← getitem (obs_train st) category;
        _ ← getitem train_cat name;
        local_cat ← getitem (obs_train_local st) category;
        vals ← getitem local_cat name;
        _ ← modify (with_train (append_value category name (np_mean vals)));
        _ ← modify (emit (LogInfoTrainMean k (np_mean vals)));
        st ← get;
        dev_cat ← getitem (obs_dev st) category;
        _ ← modify (with_dev (ensure_name category name dev_cat));
        _ ← modify (with_dev (append_value category name v));
        _ ← modify (emit (LogInfoDev k v));
        st ← get;
        if tensorboard st then
          modify (emit_tb (String.append "dev/"
                             (String.append category (String.append "/" name)),
                           v, _step st))
        else mret tt
  | _ => throw ValueError
  end.

(** [Reporter.add(observation, is_eval)]; [observation] is the dict's
    items in iteration order, [None] values included. *)
Fixpoint add (observation : list (string * option pyfloat)) (is_eval : bool)
    : M unit :=
  match observation with
  | [] => mret tt
  | (k, None) :: rest => add rest is_eval
  | (k, Some v) :: rest => _ ← add_entry is_eval k v; add rest is_eval
  end.

(** [Reporter.step(is_eval)] *)
Definition step (is_eval : bool) : M unit :=
  modify (fun st =>
    let n := (_step st + 1)%Z in
    {| tensorboard := tensorboard st; _step := n;
       obs_train := obs_train st;
       obs_train_local := if is_eval then empty_obs else obs_train_local st;
       obs_dev := obs_dev st;
       steps := if is_eval then steps st ++ [n] else steps st;
       log := log st; tb_events := tb_events st |}).

(** A call of the reporter's public methods. *)
Inductive call :=
  | CallAdd (observation : list (string * option pyfloat)) (is_eval : bool)
  | CallStep (is_eval : bool).

Definition run_call (cl : call) : M unit :=
  match cl with
  | CallAdd observation is_eval => add observation is_eval
  | CallStep is_eval => step is_eval
  end.

(** The reporter after a sequence of calls, each one made on the object
    as the previous call left it, whether that call returned or raised. *)
Fixpoint run_calls (cls : list call) (st : reporter) : reporter :=
  match cls with
  | [] => st
  | cl :: cls' => run_calls cls' (run_call cl st).1
  end.

(** [d[category][name]] when both keys are present. *)
Definition series (d : obs) (category name : string) : option (list pyfloat) :=
  d !! category ≫= lookup name.

(** The categories of an [obs_*] dict are those of
    [{'loss': {}, 'acc': {}, 'ppl': {}}]. *)
Definition same_categories (d : obs) : Prop :=
  forall category, is_Some (d !! category) <-> is_Some (empty_obs !! category).

(** Every metric's train history is as long as its dev history; a name
    with a train history and no dev history has an empty train history. *)
Definition aligned (train dev : obs) : Prop :=
  forall category name,
    match series train category name, series dev category name with
    | Some l, Some l' => length l = length l'
    | Some l, None => l = []
    | None, Some _ => False
    | None, None => True
    end.

(** The TensorBoard tag ['dev/' + category + '/' + name]. *)
Definition dev_tag (c n : string) : string :=
  String.append "dev/" (String.append c (String.append "/" n)).

(** The shape invariant of the three [obs_*] dicts. *)
Definition obs_inv (st : reporter) : Prop :=
  same_categories (obs_train st) /\ same_categories (obs_train_local st) /\
  same_categories (obs_dev st) /\ aligned (obs_train st) (obs_dev st).

(** The TensorBoard events written so far: none without TensorBoard,
    and each one under a dev tag at a step not later than [_step]. *)
Definition tb_inv (st : reporter) : Prop :=
  (tensorboard st = false -> tb_events st = []) /\
  Forall (fun ev => (exists c n, ev.1.1 = dev_tag c n) /\ (0 <= ev.2 <= _step st)%Z)
    (tb_events st).

End Reporter.

(** ** Dataset.__init__ (examples/csj/data/load_dataset.py) *)

Module Dataset.

(** A row of the manifest CSV, restricted to the three columns kept. *)
Record row := {
  frame_num : Z;
  input_path : string;
  transcript : string }.

(** The label-to-index mapping chosen by the constructor
    ([Word2idx(vocab_file_path)] or
    [Char2idx(vocab_file_path, double_letter=True)]). *)
Inductive map_fn_kind :=
  | Word2idx (vocab_file_path : string)
  | Char2idx (vocab_file_path : string) (double_letter : bool).

(** [sub in s] for Python strings. *)
Fixpoint str_contains (sub s : string) : bool :=
  String.prefix sub s ||
  match s with
  | EmptyString => false
  | String _ s' => str_contains sub s'
  end.

(** [os.path.join] of plain relative components after an absolute root. *)
Fixpoint path_join (root : string) (parts : list string) : string :=
  match parts with
  | [] => root
  | p :: ps => path_join (String.append root (String.append "/" p)) ps
  end.

(** The attributes of a [Dataset] object set by its constructor; [df]
    pairs each row with the ['index'] column (all zeros) that
    [pd.concat([self.df, new_df], axis=1)] adds. *)
Record dataset := {
  vocab_file_path : string;
  is_test : bool;
  model_type : string;
  data_type : string;
  data_size : string;
  label_type : string;
  batch_size : Z;
  max_epoch : option Z;
  splice : Z;
  num_stack : Z;
  num_skip : Z;
  shuffle : bool;
  sort_utt : bool;
  sort_stop_epoch : option Z;
  num_gpus : Z;
  use_cuda : bool;
  volatile : bool;
  save_format : string;
  map_fn : map_fn_kind;
  df : list (row * Z);
  rest : gset nat }.

Definition csj_root : string := "/n/sd8/inaguma/corpus/csj/dataset".

Section Init.

(** [pd.read_csv(path)] followed by the column selection
    [['frame_num', 'input_path', 'transcript']]. *)
Variable read_csv : string -> list row.

(** [df.sort_values(by='frame_num', ascending=asc)],
    [df.sort_values(by='input_path', ascending=True)] and
    [pd.concat([df, new_df], axis=1)] with the ['index'] column of zeros.
    The rows these produce and their order depend on pandas (the default
    quicksort leaves the order of equal keys open, and [concat] aligns
    the frames on their index labels), so they are parameters. *)
Variable sort_by_frame_num : bool -> list row -> list row.
Variable sort_by_input_path : list row -> list row.
Variable concat_index : list row -> list (row * Z).

(** [Dataset.__init__]; [reverse] is used only by the sort.
    [DatasetBase.__init__] receives only [vocab_file_path]. When
    [label_type] contains none of [kana], [kanji], [word], [phone], the
    local [dataset_path] is unbound at [pd.read_csv(dataset_path)]. *)
Definition init (model_type data_type data_size label_type : string)
    (batch_size : Z) (vocab_file_path : string) (max_epoch : option Z)
    (splice num_stack num_skip : Z) (shuffle sort_utt reverse : bool)
    (sort_stop_epoch : option Z) (num_gpus : Z) (use_cuda volatile : bool)
    (save_format : string) : result dataset :=
  let is_test :=
    bool_decide (data_type ∈ ["eval1"; "eval2"; "eval3"]) in
  let dataset_path :=
    if str_contains "kana" label_type then
      Some (path_join csj_root [save_format; data_size; data_type; "dataset_kana.csv"])
    else if str_contains "kanji" label_type || str_contains "word" label_type then
      Some (path_join csj_root [save_format; data_size; data_type; "dataset_kanji.csv"])
    else if str_contains "phone" label_type then
      Some (path_join csj_root [save_format; data_size; data_type; "dataset_phone.csv"])
    else None in
  let map_fn :=
    if str_contains "word" label_type then Word2idx vocab_file_path
    else Char2idx vocab_file_path true in
  match dataset_path with
  | None => Raise UnboundLocalError
  | Some path =>
      let rows := read_csv path in
      let rows :=
        if sort_utt then sort_by_frame_num (negb reverse) rows
        else sort_by_input_path rows in
      let df := concat_index rows in
      Ok {| vocab_file_path := vocab_file_path;
            is_test := is_test;
            model_type := model_type;
            data_type := data_type;
            data_size := data_size;
            label_type := label_type;
            batch_size := (batch_size * num_gpus)%Z;
            max_epoch := max_epoch;
            splice := splice;
            num_stack := num_stack;
            num_skip := num_skip;
            shuffle := shuffle;
            sort_utt := sort_utt;
            sort_stop_epoch := sort_stop_epoch;
            num_gpus := num_gpus;
            use_cuda := use_cuda;
            volatile := volatile;
            save_format := save_format;
            map_fn := map_fn;
            df := df;
            rest := list_to_set (seq 0 (length df)) |}
  end.

End Init.

(** The labels for which [Dataset.__init__] binds [dataset_path]. *)
Definition label_recognised (label_type : string) : bool :=
  str_contains "kana" label_type || str_contains "kanji" label_type ||
  str_contains "word" label_type || str_contains "phone" label_type.

End Dataset.

(** ** load_config (neural_sp/bin/train_utils.py) *)

Module Config.

(** The exceptions [load_config] can raise. *)
Inductive cfg_exc :=
  | IOError
  | KeyError
  | AttributeError
  | TypeError.

Section Config.

(** YAML values that [load_config] never looks into (numbers, lists,
    null, and the values of a [param] mapping). *)
Variable V : Type.

(** A YAML value as [load_config] inspects it: a string (a path), a
    mapping from keys to values, or any other value. *)
Inductive yval :=
  | YStr (s : string)
  | YDict (d : gmap string V)
  | YOther (v : V).

(** A configuration file is a YAML mapping at the top level. *)
Local Abbreviation doc := (gmap string yval).

(** The file system: each existing file with the document [yaml.load]
    reads from it. *)
Local Abbreviation files := (gmap string doc).

(** [with open(path, "r") as f: yaml.load(f)]. A missing file raises
    [IOError]; [open] of a mapping or of null raises [TypeError] (a
    non-string value is never passed as a file descriptor here). *)
Definition read_yaml (fs : files) (path : yval) : doc + cfg_exc :=
  match path with
  | YStr p => match fs !! p with Some d => inl d | None => inr IOError end
  | _ => inr TypeError
  end.

(** [for key in config['param'].keys(): params[key] = config['param'][key]];
    item assignment on a value that is not a mapping raises [TypeError]. *)
Fixpoint override (params : yval) (items : list (string * V)) : yval + cfg_exc :=
  match items with
  | [] => inl params
  | (key, v) :: items' =>
      match params with
      | YDict d => override (YDict (<[key := v]> d)) items'
      | _ => inr TypeError
      end
  end.

(** [load_config(config_path)]; [.keys()] of a value that is not a
    mapping raises [AttributeError]. *)
Definition load_config (fs : files) (config_path : string) : yval + cfg_exc :=
  match read_yaml fs (YStr config_path) with
  | inr e => inr e
  | inl config =>
      match config !! "parent" with
      | Some parent =>
          match read_yaml fs parent with
          | inr e => inr e
          | inl config_parent =>
              match config_parent !! "param" with
              | None => inr KeyError
              | Some params =>
                  match config !! "param" with
                  | None => inr KeyError
                  | Some (YDict child) => override params (map_to_list child)
                  | Some _ => inr AttributeError
                  end
              end
          end
      | None =>
          match config !! "param" with
          | Some params => inl params
          | None => inr KeyError
          end
      end
  end.

End Config.

Arguments YStr {V} s.
Arguments YDict {V} d.
Arguments YOther {V} v.

Abbreviation doc V := (gmap string (yval V)).
Abbreviation files V := (gmap string (doc V)).

End Config.

(** ** set_logger (neural_sp/bin/train_utils.py) *)

Module Logging.

Definition NOTSET : Z := 0.
Definition DEBUG : Z := 10.
Definition INFO : Z := 20.
Definition WARNING : Z := 30.

Inductive handler_kind :=
  | StreamHandler
  | FileHandler (path : string).

Record handler := {
  h_kind : handler_kind;
  h_level : Z;
  h_format : string }.

(** A [logging.Logger]: its level and its handlers, in order. *)
Record logger := {
  l_level : Z;
  handlers : list handler }.

(** The loggers created so far, by name. *)
Abbreviation registry := (gmap string logger).

(** [logging.getLogger(key)]: a new logger has level [NOTSET] and no
    handler. *)
Definition get_logger (reg : registry) (key : string) : logger :=
  default {| l_level := NOTSET; handlers := [] |} (reg !! key).

Definition log_format : string :=
  "%(asctime)s %(name)s line:%(lineno)d %(levelname)s: %(message)s".

(** [set_logger(save_path, key)]: returns the logger's name and the
    registry in which that logger has level [DEBUG] and two more
    handlers (each [addHandler] appends a handler object it does not
    hold yet). *)
Definition set_logger (reg : registry) (save_path key : string) : registry * string :=
  let lg := get_logger reg key in
  let sh := {| h_kind := StreamHandler; h_level := WARNING; h_format := log_format |} in
  let fh := {| h_kind := FileHandler save_path; h_level := DEBUG;
               h_format := log_format |} in
  (<[key := {| l_level := DEBUG; handlers := handlers lg ++ [sh; fh] |}]> reg, key).

(** The level a logger filters with: its own, or the root logger's
    default [WARNING] when it is [NOTSET] (for a logger name without a
    dot, whose parent is the root logger). *)
Definition effective_level (lg : logger) : Z :=
  if Z.eqb (l_level lg) NOTSET then WARNING else l_level lg.

(** [logger.log(level, msg)]: the handlers of the logger that emit the
    record, in order, for a root logger without handlers of its own.
    Python's last-resort stderr handler, used only when no handler at
    all is found, is not represented. *)
Definition emitting (reg : registry) (key : string) (level : Z) : list handler :=
  let lg := get_logger reg key in
  if Z.leb (effective_level lg) level
  then List.filter (fun h => Z.leb (h_level h) level) (handlers lg)
  else [].

End Logging.

(** ** Concrete objects used by the examples below *)

Module Fixtures.
Import Controller.

Local Open Scope R_scope.

(** A plain (non-Adadelta) optimizer with one parameter group. *)
Definition sgd : optimizer :=
  {| is_adadelta := false;
     param_groups := [<["lr" := PFloat 1]> (<["params" := PObj "w"]> ∅)] |}.

(** An Adadelta optimizer with one parameter group. *)
Definition adadelta : optimizer :=
  {| is_adadelta := true;
     param_groups :=
       [<["lr" := PFloat 1]> (<["eps" := PFloat (1/1000000)]>
          (<["params" := PObj "w"]> ∅))] |}.

(** A metric-plateau controller: patience 1, decay by 1/2 from epoch 0,
    best value 10000, lower is better. *)
Definition metric_ctl : controller :=
  {| lr_max := 1; decay_type := "metric"; decay_start_epoch := 0;
     decay_rate := 1/2; decay_patient_epoch := 1; not_improved_epoch := 0;
     lower_better := true; best_value := 10000; lr_init := 1;
     warmup_start_lr := 0; warmup_nsteps := 4000 |}.

(** A [compute_wer] for scoring examples over ASCII text: every
    hypothesis token counted as an insertion, which is the edit-distance
    result whenever the reference is empty. *)
Definition all_insertions (r h : list (list ascii)) : option (Q * Q * Q * Q) :=
  let n := inject_Z (Z.of_nat (length h)) in Some (n, 0, n, 0)%Q.

(** A config file [exp/conf.yml] that overrides [batch_size] of its
    parent [conf/base.yml]. *)
Definition example_fs : Config.files nat :=
  <["exp/conf.yml" := <["parent" := Config.YStr "conf/base.yml"]>
                        {[ "param" := Config.YDict {[ "batch_size" := 20%nat ]} ]}]>
    {[ "conf/base.yml" :=
         {[ "param" := Config.YDict (<[ "batch_size" := 50%nat ]> {[ "n_epochs" := 25%nat ]}) ]} ]}.

End Fixtures.

(** * Properties *)

(** ** do_eval_cer *)

Module CerFacts.
Import Cer.

Section Facts.
Variable ch : Type.
Variable ch_eqb : ch -> ch -> bool.
Variables at_sign gt_sign underscore : ch.
Variable compute_wer : list (list ch) -> list (list ch) -> option (Q * Q * Q * Q).

Let eval := do_eval_cer ch ch_eqb at_sign gt_sign underscore compute_wer.
Let tally_of := pass_tally ch ch_eqb at_sign gt_sign underscore compute_wer.

Lemma py_div_zero (x : Q) : py_div x 0 = Raise ZeroDivisionError.
Proof. reflexivity. Qed.

Lemma py_div_nonzero (x : Q) (n : Z) : n <> 0%Z -> py_div x n = Ok (x / inject_Z n)%Q.
Proof. intros Hn. unfold py_div. apply Z.eqb_neq in Hn. rewrite Hn. reflexivity. Qed.

(** C1 (amended): [do_eval_cer] divides by the accumulated reference
    lengths without a guard. A pass whose total [num_chars] is zero, or,
    with word-level scoring, whose total [num_words] is zero, raises
    [ZeroDivisionError]; without word-level scoring and with a nonzero
    [num_chars], the WER is reported as 0. *)
Theorem do_eval_cer_zero_length_raises (word_level attention : bool)
    (utts : list (str ch * str ch)) :
  let t := tally_of word_level attention utts in
  ((t_num_chars t = 0%Z \/ (word_level = true /\ t_num_words t = 0%Z)) ->
   eval word_level attention utts = Raise ZeroDivisionError) /\
  (t_num_chars t <> 0%Z -> word_level = false ->
   exists cer df, eval word_level attention utts = Ok (cer, 0%Q, df)).
Proof.
  cbv zeta. subst eval tally_of. unfold do_eval_cer.
  set (t := pass_tally ch ch_eqb at_sign gt_sign underscore compute_wer
              word_level attention utts).
  split.
  - intros [Hc | [Hw Hn]].
    + destruct word_level.
      * destruct (Z.eq_dec (t_num_words t) 0%Z) as [Hn | Hn].
        -- rewrite Hn. reflexivity.
        -- cbn [mbind result_bind]. rewrite !(py_div_nonzero _ (t_num_words t) Hn).
           rewrite Hc. reflexivity.
      * cbn [mbind result_bind mret result_ret]. rewrite Hc. reflexivity.
    + subst word_level. rewrite Hn. reflexivity.
  - intros Hc Hw. subst word_level.
    cbn [mbind result_bind mret result_ret]. rewrite !(py_div_nonzero _ (t_num_chars t) Hc).
    eexists _, _. reflexivity.
Qed.

End Facts.

(** C1 counterexample: an utterance whose reference holds only the
    garbage labels ['@>'] contributes no characters, so a pass over it
    alone has [num_chars = 0] and [do_eval_cer] raises
    [ZeroDivisionError] at [cer /= num_chars]. *)
Lemma do_eval_cer_empty_reference_raises :
  t_num_chars (pass_tally ascii Ascii.eqb "@"%char ">"%char "_"%char Fixtures.all_insertions
                 false false [(list_ascii_of_string "@>", list_ascii_of_string "a")]) = 0%Z /\
  do_eval_cer ascii Ascii.eqb "@"%char ">"%char "_"%char Fixtures.all_insertions false false
    [(list_ascii_of_string "@>", list_ascii_of_string "a")] = Raise ZeroDivisionError.
Proof. split; vm_compute; reflexivity. Qed.

End CerFacts.

(** ** Controller *)

Module ControllerFacts.
Import Controller.

Local Open Scope R_scope.

Lemma set_groups_groups (key : string) (lr : R) (opt : optimizer) :
  param_groups (set_groups key lr opt) =
  map (fun g => <[key := PFloat lr]> g) (param_groups opt).
Proof. reflexivity. Qed.

Lemma set_groups_adadelta (key : string) (lr : R) (opt : optimizer) :
  is_adadelta (set_groups key lr opt) = is_adadelta opt.
Proof. reflexivity. Qed.

(** An epoch-decay controller never changes its own attributes, leaves
    the rate alone before [decay_start_epoch] and multiplies it by
    [decay_rate] from there on. *)
Lemma decay_lr_epoch (c : controller) (opt : optimizer) (lr : R) (epoch : Z)
    (value : R) :
  decay_type c = "epoch" ->
  decay_lr c opt lr epoch value =
  if Z.ltb epoch (decay_start_epoch c) then (c, opt, lr)
  else (c, set_groups (lr_key opt) (lr * decay_rate c) opt, lr * decay_rate c).
Proof.
  intros Ht. unfold decay_lr. rewrite Ht. cbn.
  destruct (Z.ltb epoch (decay_start_epoch c)); reflexivity.
Qed.

Lemma run_decay_epoch (c : controller) (evs : list (Z * R)) :
  decay_type c = "epoch" ->
  forall opt lr,
  (run_decay c opt lr evs).1.1 = c /\
  (run_decay c opt lr evs).2 =
    lr * decay_rate c ^ length (List.filter (fun ev => negb (Z.ltb ev.1 (decay_start_epoch c))) evs).
Proof.
  intros Ht. induction evs as [| [epoch value] evs IH]; intros opt lr.
  - cbn. split; [reflexivity | ring].
  - cbn [run_decay]. rewrite (decay_lr_epoch c opt lr epoch value Ht).
    cbn [List.filter fst].
    destruct (Z.ltb epoch (decay_start_epoch c)); cbn [negb].
    + apply IH.
    + destruct (IH (set_groups (lr_key opt) (lr * decay_rate c) opt)
                   (lr * decay_rate c)) as [H1 H2].
      split; [exact H1 |]. rewrite H2. cbn [length pow]. ring.
Qed.

(** C2: a controller built with [decay_type="epoch"] leaves the rate
    unchanged at every epoch before [decay_start_epoch]; fed its own
    returned rates from [initial_rate] on, it returns
    [initial_rate * decay_rate ^ N] after [N] epochs at or past
    [decay_start_epoch] (whatever the metric values). *)
Theorem epoch_decay_schedule (initial_rate : R) (decay_start_epoch : Z)
    (decay_rate : R) (decay_patient_epoch : Z) (lower_better : bool)
    (best_value model_size warmup_start_learning_rate : R)
    (warmup_nsteps : Z) (factor : R) (opt : optimizer) (evs : list (Z * R)) :
  exists c,
    init initial_rate "epoch" decay_start_epoch decay_rate decay_patient_epoch
      lower_better best_value model_size warmup_start_learning_rate
      warmup_nsteps factor = Ok c /\
    (forall o lr epoch value, (epoch < decay_start_epoch)%Z ->
       decay_lr c o lr epoch value = (c, o, lr)) /\
    (run_decay c opt initial_rate evs).2 =
      initial_rate * decay_rate ^
        length (List.filter (fun ev => Z.leb decay_start_epoch ev.1) evs).
Proof.
  eexists. split; [reflexivity |]. split.
  - intros o lr epoch value Hlt. rewrite decay_lr_epoch by reflexivity.
    cbn [Controller.decay_start_epoch]. apply Z.ltb_lt in Hlt. rewrite Hlt.
    reflexivity.
  - match goal with
    | |- (run_decay ?c _ _ _).2 = _ =>
        destruct (run_decay_epoch c evs eq_refl opt initial_rate) as [_ H]
    end.
    rewrite H. cbn [Controller.decay_start_epoch Controller.decay_rate].
    do 3 f_equal. apply List.filter_ext. intros [e v]. cbn [fst].
    rewrite Z.leb_antisym. reflexivity.
Qed.

Lemma set_best_fields (c : controller) (v : R) :
  decay_type (set_best c v) = decay_type c /\
  lower_better (set_best c v) = lower_better c /\
  decay_start_epoch (set_best c v) = decay_start_epoch c /\
  decay_patient_epoch (set_best c v) = decay_patient_epoch c /\
  decay_rate (set_best c v) = decay_rate c /\
  not_improved_epoch (set_best c v) = not_improved_epoch c /\
  best_value (set_best c v) = v.
Proof. repeat split. Qed.

Lemma set_not_improved_fields (c : controller) (n : Z) :
  decay_type (set_not_improved c n) = decay_type c /\
  lower_better (set_not_improved c n) = lower_better c /\
  decay_start_epoch (set_not_improved c n) = decay_start_epoch c /\
  decay_patient_epoch (set_not_improved c n) = decay_patient_epoch c /\
  decay_rate (set_not_improved c n) = decay_rate c /\
  not_improved_epoch (set_not_improved c n) = n /\
  best_value (set_not_improved c n) = best_value c.
Proof. repeat split. Qed.

Section Metric.
Variable c : controller.
Hypothesis Hm : decay_type c = "metric".
Hypothesis Hl : lower_better c = true.

Lemma decay_lr_metric_improved (opt : optimizer) (lr : R) (epoch : Z) (v : R) :
  v < best_value c ->
  decay_lr c opt lr epoch v =
  (if Z.ltb epoch (decay_start_epoch c) then set_best c v
   else set_not_improved (set_best c v) 0, opt, lr).
Proof.
  intros Hv. unfold decay_lr. rewrite Hl, Hm. cbn [String.eqb Ascii.eqb Bool.eqb andb].
  destruct (Rlt_dec v (best_value c)) as [_ | Hn]; [| contradiction].
  destruct (Z.ltb epoch (decay_start_epoch c)); reflexivity.
Qed.

Lemma decay_lr_metric_not_improved (opt : optimizer) (lr : R) (epoch : Z) (v : R) :
  best_value c <= v -> (decay_start_epoch c <= epoch)%Z ->
  decay_lr c opt lr epoch v =
  if Z.ltb (not_improved_epoch c) (decay_patient_epoch c) then
    (set_not_improved c (not_improved_epoch c + 1), opt, lr)
  else
    (set_not_improved c 0, set_groups (lr_key opt) (lr * decay_rate c) opt,
     lr * decay_rate c).
Proof.
  intros Hv He. unfold decay_lr. rewrite Hl, Hm. cbn [String.eqb Ascii.eqb Bool.eqb andb].
  assert (Hlt : Z.ltb epoch (decay_start_epoch c) = false) by (apply Z.ltb_ge; lia).
  rewrite Hlt.
  destruct (Rlt_dec v (best_value c)) as [Hb | _]; [lra |].
  reflexivity.
Qed.

End Metric.

Lemma run_decay_decreasing (rest : list (Z * R)) :
  forall (c : controller) (opt : optimizer) (lr : R) (e0 : Z) (v0 : R),
  decay_type c = "metric" -> lower_better c = true ->
  v0 < best_value c -> Sorted Rgt (v0 :: map snd rest) ->
  (run_decay c opt lr ((e0, v0) :: rest)).1.2 = opt /\
  (run_decay c opt lr ((e0, v0) :: rest)).2 = lr.
Proof.
  induction rest as [| [e1 v1] rest IH];
    intros c opt lr e0 v0 Hm Hl Hv Hs;
    cbn [run_decay]; rewrite (decay_lr_metric_improved c Hm Hl opt lr e0 v0 Hv).
  - destruct (Z.ltb e0 (decay_start_epoch c)); split; reflexivity.
  - apply Sorted_inv in Hs as [Hs Hhd]. cbn [map snd] in Hhd.
    apply HdRel_inv in Hhd.
    destruct (Z.ltb e0 (decay_start_epoch c)); apply IH; try exact Hs;
      try reflexivity; cbn; auto.
Qed.

Lemma run_decay_plateau (evs : list (Z * R)) :
  forall (c : controller) (opt : optimizer) (lr : R) (n p : nat),
  decay_type c = "metric" -> lower_better c = true ->
  decay_patient_epoch c = Z.of_nat p -> not_improved_epoch c = Z.of_nat n ->
  (n <= p)%nat ->
  Forall (fun ev => (decay_start_epoch c <= ev.1)%Z /\ best_value c <= ev.2) evs ->
  (run_decay c opt lr evs).2 = lr * decay_rate c ^ ((n + length evs) / S p) /\
  not_improved_epoch (run_decay c opt lr evs).1.1 = Z.of_nat ((n + length evs) mod S p).
Proof.
  induction evs as [| [e v] evs IH]; intros c opt lr n p Hm Hl Hp Hn Hnp Hall.
  - cbn [run_decay length]. rewrite Nat.add_0_r.
    rewrite Nat.div_small by lia. rewrite Nat.mod_small by lia.
    split; [cbn; ring | exact Hn].
  - inversion Hall as [| ? ? [He Hv] Hall']; subst.
    cbn [run_decay length].
    rewrite (decay_lr_metric_not_improved c Hm Hl opt lr e v Hv He).
    rewrite Hn, Hp.
    destruct (Z.ltb (Z.of_nat n) (Z.of_nat p)) eqn:Hlt.
    + apply Z.ltb_lt in Hlt.
      replace (n + S (length evs))%nat with (S n + length evs)%nat by lia.
      apply (IH (set_not_improved c (Z.of_nat n + 1)) opt lr (S n) p); cbn; auto; lia.
    + apply Z.ltb_ge in Hlt. assert (n = p) by lia. subst n.
      destruct (IH (set_not_improved c 0) (set_groups (lr_key opt) (lr * decay_rate c) opt)
                   (lr * decay_rate c) 0%nat p Hm Hl Hp eq_refl (Nat.le_0_l p) Hall')
        as [H1 H2].
      replace (p + S (length evs))%nat with (length evs + 1 * S p)%nat by lia.
      rewrite Nat.div_add by lia. rewrite Nat.Div0.mod_add.
      cbn [Nat.add] in H1, H2. split; [| exact H2].
      change (decay_rate (set_not_improved c 0)) with (decay_rate c) in H1.
      rewrite H1. rewrite Nat.add_1_r. cbn [pow]. ring.
Qed.

(** C3 (amended): for a metric-plateau controller with lower-is-better
    values and a non-negative patience [p]: (a) a value below
    [best_value] at or after [decay_start_epoch] updates the best value,
    resets the not-improved counter to 0 and keeps the rate; (b) a
    strictly decreasing sequence of values whose first value is below
    the current [best_value] never decays the rate nor touches the
    optimizer (a sequence starting at or above [best_value] can decay,
    see [metric_decreasing_sequence_decays]); (c) from a zero counter,
    [k] consecutive epochs at or after [decay_start_epoch] whose values
    are not below [best_value] (a flat plateau) decay the rate exactly
    [k / (p + 1)] times, each decay resetting the counter, which ends at
    [k mod (p + 1)]. *)
Theorem metric_plateau_decay (c : controller)
    (Hm : decay_type c = "metric") (Hl : lower_better c = true)
    (Hp : (0 <= decay_patient_epoch c)%Z) :
  (forall opt lr epoch v, (decay_start_epoch c <= epoch)%Z -> v < best_value c ->
     decay_lr c opt lr epoch v = (set_not_improved (set_best c v) 0, opt, lr)) /\
  (forall opt lr e0 v0 rest, v0 < best_value c -> Sorted Rgt (v0 :: map snd rest) ->
     (run_decay c opt lr ((e0, v0) :: rest)).1.2 = opt /\
     (run_decay c opt lr ((e0, v0) :: rest)).2 = lr) /\
  (forall opt lr evs, not_improved_epoch c = 0%Z ->
     Forall (fun ev => (decay_start_epoch c <= ev.1)%Z /\ best_value c <= ev.2) evs ->
     (run_decay c opt lr evs).2 =
       lr * decay_rate c ^ (length evs / S (Z.to_nat (decay_patient_epoch c))) /\
     not_improved_epoch (run_decay c opt lr evs).1.1 =
       Z.of_nat (length evs mod S (Z.to_nat (decay_patient_epoch c)))).
Proof.
  split; [| split].
  - intros opt lr epoch v He Hv.
    rewrite (decay_lr_metric_improved c Hm Hl opt lr epoch v Hv).
    assert (Hlt : Z.ltb epoch (decay_start_epoch c) = false) by (apply Z.ltb_ge; lia).
    rewrite Hlt. reflexivity.
  - intros. apply run_decay_decreasing; assumption.
  - intros opt lr evs H0 Hall.
    apply (run_decay_plateau evs c opt lr 0%nat (Z.to_nat (decay_patient_epoch c)));
      auto; lia.
Qed.

(** Witness of [metric_plateau_decay]: with patience 1, four epochs at
    the best value 10000 halve the rate twice. *)
Lemma metric_plateau_decay_witness :
  (run_decay Fixtures.metric_ctl Fixtures.sgd 1
     [(1%Z, 10000); (2%Z, 10000); (3%Z, 10000); (4%Z, 10000)]).2 = 1 * (1/2) ^ 2.
Proof.
  destruct (metric_plateau_decay Fixtures.metric_ctl eq_refl eq_refl
              ltac:(cbn; lia)) as [_ [_ H]].
  exact (proj1 (H Fixtures.sgd 1
                  [(1%Z, 10000); (2%Z, 10000); (3%Z, 10000); (4%Z, 10000)] eq_refl
                  ltac:(repeat constructor; cbn; lra || lia))).
Defined.

(** C3 counterexample: with the source's default [best_value=10000] and
    [decay_patient_epoch=1], the strictly decreasing values 20000, 19000
    at epochs 0 and 1 (decay starting at epoch 0) halve the rate. *)
Lemma metric_decreasing_sequence_decays :
  Sorted Rgt [20000; 19000] /\
  exists c,
    init 1 "metric" 0 (1/2) 1 true 10000 1 0 4000 1 = Ok c /\
    (run_decay c Fixtures.sgd 1 [(0%Z, 20000); (1%Z, 19000)]).2 = 1 * (1/2).
Proof.
  split.
  - repeat constructor. lra.
  - eexists. split; [reflexivity |].
    unfold run_decay, decay_lr. cbn.
    repeat (match goal with
            | |- context [Rlt_dec ?a ?b] => destruct (Rlt_dec a b); [lra |]
            end; cbn).
    reflexivity.
Qed.

Lemma warmup_lr_inv_sqrt (c : controller) (opt : optimizer) (lr : R) (step : Z) :
  warmup_start_lr c <= 0 ->
  warmup_lr c opt lr step =
  Ok (set_groups "lr" (lr_init c * Rmin (np_power (IZR step) (-0.5))
                          (IZR step * np_power (IZR (warmup_nsteps c)) (-1.5))) opt,
      lr_init c * Rmin (np_power (IZR step) (-0.5))
                       (IZR step * np_power (IZR (warmup_nsteps c)) (-1.5))).
Proof.
  intros Hws. unfold warmup_lr.
  destruct (Rlt_dec 0 (warmup_start_lr c)) as [H | _]; [lra |].
  reflexivity.
Qed.

Lemma warmup_lr_linear (c : controller) (opt : optimizer) (lr : R) (step : Z) :
  0 < warmup_start_lr c -> (0 < warmup_nsteps c)%Z ->
  warmup_lr c opt lr step =
  Ok (set_groups "lr" ((lr_max c - warmup_start_lr c) / IZR (warmup_nsteps c) * IZR step
                        + lr_init c) opt,
      (lr_max c - warmup_start_lr c) / IZR (warmup_nsteps c) * IZR step + lr_init c).
Proof.
  intros Hws Hn. unfold warmup_lr.
  destruct (Rlt_dec 0 (warmup_start_lr c)) as [_ | H]; [| lra].
  unfold py_fdiv. destruct (Req_dec_T (IZR (warmup_nsteps c)) 0) as [H | _].
  - apply eq_IZR in H. lia.
  - reflexivity.
Qed.

Lemma np_power_pos (x y : R) : 0 < np_power x y.
Proof. unfold np_power, Rpower. apply exp_pos. Qed.

(** C4: in the inverse-square-root branch ([warmup_start_learning_rate]
    not positive, in particular 0) [warmup_lr] returns, and writes to every
    parameter group's ['lr'],
    [lr_init * min(step^-0.5, step * warmup_nsteps^-1.5)]; at
    [step = warmup_nsteps > 0] both arguments of the min coincide and the
    rate is exactly [lr_init * warmup_nsteps^-0.5]. *)
Theorem warmup_inverse_sqrt (c : controller) (Hws : warmup_start_lr c <= 0)
    (opt : optimizer) (lr : R) (step : Z) :
  warmup_lr c opt lr step =
  Ok (set_groups "lr" (lr_init c * Rmin (np_power (IZR step) (-0.5))
                          (IZR step * np_power (IZR (warmup_nsteps c)) (-1.5))) opt,
      lr_init c * Rmin (np_power (IZR step) (-0.5))
                       (IZR step * np_power (IZR (warmup_nsteps c)) (-1.5))) /\
  (step = warmup_nsteps c -> (0 < step)%Z ->
   lr_init c * Rmin (np_power (IZR step) (-0.5))
                    (IZR step * np_power (IZR (warmup_nsteps c)) (-1.5)) =
   lr_init c * np_power (IZR (warmup_nsteps c)) (-0.5)).
Proof.
  split; [apply warmup_lr_inv_sqrt; exact Hws |].
  intros -> Hpos. apply IZR_lt in Hpos.
  set (n := IZR (warmup_nsteps c)) in *.
  assert (Hn : n * np_power n (-1.5) = np_power n (-0.5)).
  { unfold np_power. rewrite <- (Rpower_1 n) at 1 by exact Hpos.
    rewrite <- Rpower_plus. f_equal. lra. }
  rewrite Hn, Rmin_left by lra. reflexivity.
Qed.

(** Witness of [warmup_inverse_sqrt]: for the default warm-up settings
    ([warmup_start_learning_rate=0], [warmup_nsteps=4000]), step 4000
    yields [lr_init * 4000^-0.5]. *)
Lemma warmup_inverse_sqrt_witness :
  exists o,
    warmup_lr Fixtures.metric_ctl Fixtures.sgd 1 4000 =
    Ok (o, 1 * np_power (IZR 4000) (-0.5)).
Proof.
  destruct (warmup_inverse_sqrt Fixtures.metric_ctl ltac:(cbn; lra)
              Fixtures.sgd 1 4000) as [H1 H2].
  rewrite H1. eexists. f_equal. f_equal.
  exact (H2 eq_refl ltac:(cbn; lia)).
Defined.

(** C5 (code bug): for an Adadelta optimizer, [decay_lr] writes the new
    rate to the ['eps'] entry of every parameter group (and nothing
    else), while [warmup_lr] writes it to ['lr'], leaving ['eps']
    untouched. *)
Theorem adadelta_rate_field (c : controller) (opt : optimizer) (lr : R)
    (Ha : is_adadelta opt = true) :
  (forall epoch value, decay_type c = "epoch" -> (decay_start_epoch c <= epoch)%Z ->
     param_groups (decay_lr c opt lr epoch value).1.2 =
     map (fun g => <["eps" := PFloat (lr * decay_rate c)]> g) (param_groups opt)) /\
  (forall step opt' lr', warmup_lr c opt lr step = Ok (opt', lr') ->
     param_groups opt' = map (fun g => <["lr" := PFloat lr']> g) (param_groups opt) /\
     Forall2 (fun g' g => g' !! "eps" = g !! "eps") (param_groups opt') (param_groups opt)).
Proof.
  split.
  - intros epoch value Ht He. rewrite decay_lr_epoch by exact Ht.
    assert (Hlt : Z.ltb epoch (decay_start_epoch c) = false) by (apply Z.ltb_ge; lia).
    rewrite Hlt. cbn [fst snd]. rewrite set_groups_groups.
    unfold lr_key. rewrite Ha. reflexivity.
  - intros step opt' lr' H. unfold warmup_lr in H.
    destruct (Rlt_dec 0 (warmup_start_lr c)).
    + destruct (py_fdiv (lr_max c - warmup_start_lr c) (IZR (warmup_nsteps c)));
        cbn in H; [| discriminate].
      injection H as <- <-. split; [reflexivity |].
      cbn. induction (param_groups opt) as [| g gs IH]; constructor; [| exact IH].
      rewrite lookup_insert_ne by discriminate. reflexivity.
    + cbn in H. injection H as <- <-. split; [reflexivity |].
      cbn. induction (param_groups opt) as [| g gs IH]; constructor; [| exact IH].
      rewrite lookup_insert_ne by discriminate. reflexivity.
Qed.

(** Witness of [adadelta_rate_field]: the Adadelta fixture under
    [warmup_lr] keeps its ['eps'] and gets a new ['lr']. *)
Lemma adadelta_rate_field_witness :
  exists o lr',
    warmup_lr Fixtures.metric_ctl Fixtures.adadelta 1 4000%Z = Ok (o, lr') /\
    param_groups o = map (fun g => <["lr" := PFloat lr']> g)
                         (param_groups Fixtures.adadelta).
Proof.
  do 2 eexists. split.
  - apply warmup_lr_inv_sqrt. cbn. lra.
  - exact (proj1 (proj2 (adadelta_rate_field Fixtures.metric_ctl Fixtures.adadelta 1
                           eq_refl) 4000%Z _ _ (warmup_lr_inv_sqrt Fixtures.metric_ctl Fixtures.adadelta 1 4000%Z ltac:(cbn; lra)))).
Defined.

Lemma decay_lr_rate (c : controller) (opt : optimizer) (lr : R) (epoch : Z) (value : R) :
  (decay_lr c opt lr epoch value).2 = lr \/
  (decay_lr c opt lr epoch value).2 = lr * decay_rate c.
Proof.
  unfold decay_lr.
  destruct (Z.ltb epoch (decay_start_epoch c));
    destruct (String.eqb (decay_type c) "metric");
    repeat match goal with
           | |- context [Rlt_dec ?a ?b] => destruct (Rlt_dec a b)
           | |- context [Z.ltb ?a ?b] => destruct (Z.ltb a b)
           | |- context [String.eqb ?a ?b] => destruct (String.eqb a b)
           end; cbn; auto.
Qed.







End ControllerFacts.

(** ** Reporter *)

Module ReporterFacts.
Import Reporter.

Local Open Scope R_scope.

(** Unfold the reporter monad and the record updates, leaving map
    lookups folded. *)
Ltac msimp :=
  unfold mbind, M_bind, mret, M_ret, get, modify, throw, getitem,
    with_local, with_train, with_dev, emit, emit_tb;
  cbn [with_local with_train with_dev emit emit_tb
       obs_train obs_train_local obs_dev log steps _step tensorboard tb_events
       negb fst snd].

Lemma warned_fields (k : string) (v : pyfloat) (st : reporter) :
  obs_train (warned k v st) = obs_train st /\
  obs_train_local (warned k v st) = obs_train_local st /\
  obs_dev (warned k v st) = obs_dev st /\
  steps (warned k v st) = steps st /\
  _step (warned k v st) = _step st /\
  tensorboard (warned k v st) = tensorboard st /\
  log (warned k v st) =
    log st ++ (if is_inf v then [LogWarning (inf_warning k)] else []).
Proof.
  unfold warned. destruct (is_inf v); cbn; repeat split.
  rewrite app_nil_r. reflexivity.
Qed.

Lemma ensure_append (category name : string) (cat : gmap string (list pyfloat))
    (v : pyfloat) (d : obs) :
  d !! category = Some cat ->
  append_value category name v (ensure_name category name cat d) =
  <[category := <[name := default [] (cat !! name) ++ [v]]> cat]> d.
Proof.
  intros Hd. unfold ensure_name, append_value.
  destruct (cat !! name) as [l |] eqn:Hl.
  - rewrite Hd, Hl. reflexivity.
  - rewrite lookup_insert_eq. rewrite lookup_insert_eq. cbn.
    rewrite insert_insert_eq. rewrite insert_insert_eq. reflexivity.
Qed.

Lemma ensure_lookup (category name : string) (cat : gmap string (list pyfloat)) (d : obs) :
  d !! category = Some cat ->
  exists cat', ensure_name category name cat d !! category = Some cat' /\
               cat' !! name = Some (default [] (cat !! name)).
Proof.
  intros Hd. unfold ensure_name. destruct (cat !! name) as [l |] eqn:Hl.
  - exists cat. split; [exact Hd | exact Hl].
  - eexists. rewrite lookup_insert_eq. split; [reflexivity |].
    apply lookup_insert_eq.
Qed.

(** A training entry is buffered in [obs_train_local]. *)
Lemma add_entry_train (st : reporter) (k category name : string) (v : pyfloat)
    (lc : gmap string (list pyfloat)) :
  split_dot k = [category; name] ->
  obs_train_local st !! category = Some lc ->
  add_entry false k v st =
  (with_local (fun _ => <[category := <[name := default [] (lc !! name) ++ [v]]> lc]>
                          (obs_train_local st)) (warned k v st), Ok tt).
Proof.
  intros Hs Hl. unfold add_entry. rewrite Hs. msimp.
  destruct (warned_fields k v st) as (_ & Hwl & _).
  rewrite Hwl, Hl. msimp.
  rewrite ?Hwl. rewrite (ensure_append category name lc v _ Hl). reflexivity.
Qed.

(** An evaluation entry whose name is buffered: the buffer's mean goes
    to [obs_train], the value to [obs_dev]. *)
Lemma add_entry_eval (st : reporter) (k category name : string) (v : pyfloat)
    (tc lc dc : gmap string (list pyfloat)) (vals : list pyfloat) :
  split_dot k = [category; name] ->
  obs_train st !! category = Some tc ->
  obs_train_local st !! category = Some lc ->
  lc !! name = Some vals ->
  obs_dev st !! category = Some dc ->
  exists st',
    add_entry true k v st = (st', Ok tt) /\
    obs_train st' = <[category := <[name := default [] (tc !! name) ++ [np_mean vals]]> tc]>
                      (obs_train st) /\
    obs_dev st' = <[category := <[name := default [] (dc !! name) ++ [v]]> dc]>
                    (obs_dev st) /\
    obs_train_local st' = obs_train_local st /\
    steps st' = steps st /\ _step st' = _step st /\
    log st' = log st ++ (if is_inf v then [LogWarning (inf_warning k)] else []) ++
              [LogInfoTrainMean k (np_mean vals); LogInfoDev k v].
Proof.
  intros Hs Ht Hl Hn Hd. unfold add_entry. rewrite Hs. msimp.
  destruct (warned_fields k v st) as (Hwt & Hwl & Hwd & Hws & Hwn & Hwb & Hwg).
  rewrite Hwt, Ht. msimp. rewrite ?Hwt, ?Hwl, ?Hwd.
  destruct (ensure_lookup category name tc (obs_train st) Ht) as (tc' & Htc' & Hn').
  rewrite Htc'. msimp. rewrite Hn'. msimp. rewrite ?Hwt, ?Hwl, ?Hwd.
  rewrite Hl. msimp. rewrite Hn. msimp. rewrite ?Hwt, ?Hwl, ?Hwd.
  rewrite Hd. msimp. rewrite ?Hwt, ?Hwl, ?Hwd.
  destruct (tensorboard (warned k v st)); msimp;
    (eexists; split; [reflexivity |]); cbn;
    rewrite ?Hwt, ?Hwl, ?Hwd, ?Hws, ?Hwn, ?Hwg;
    (split; [apply ensure_append; exact Ht |]);
    (split; [apply ensure_append; exact Hd |]);
    repeat split; rewrite <- !app_assoc; reflexivity.
Qed.

(** An evaluation entry whose name is not buffered raises [KeyError]
    at [self.obs_train_local[category][name]], after
    [self.obs_train[category][name] = []] when the name was new there. *)
Lemma add_entry_eval_missing (st : reporter) (k category name : string) (v : pyfloat)
    (tc lc : gmap string (list pyfloat)) :
  split_dot k = [category; name] ->
  obs_train st !! category = Some tc ->
  obs_train_local st !! category = Some lc ->
  lc !! name = None ->
  exists st',
    add_entry true k v st = (st', Raise KeyError) /\
    obs_dev st' = obs_dev st /\
    obs_train_local st' = obs_train_local st /\
    obs_train st' = ensure_name category name tc (obs_train st).
Proof.
  intros Hs Ht Hl Hn. unfold add_entry. rewrite Hs. msimp.
  destruct (warned_fields k v st) as (Hwt & Hwl & Hwd & _).
  rewrite Hwt, Ht. msimp. rewrite ?Hwt, ?Hwl, ?Hwd.
  destruct (ensure_lookup category name tc (obs_train st) Ht) as (tc' & Htc' & Hn').
  rewrite Htc'. msimp. rewrite Hn'. msimp. rewrite ?Hwt, ?Hwl, ?Hwd.
  rewrite Hl. msimp. rewrite Hn. msimp.
  eexists. split; [reflexivity |]. cbn. rewrite ?Hwd, ?Hwl, ?Hwt. repeat split.
Qed.

Lemma warned_finite (k : string) (v : pyfloat) (st : reporter) :
  is_inf v = false -> warned k v st = st.
Proof. intros H. unfold warned. rewrite H. reflexivity. Qed.

Lemma add_single (st : reporter) (k : string) (v : pyfloat) (is_eval : bool) :
  add [(k, Some v)] is_eval st =
  match add_entry is_eval k v st with
  | (st', Ok _) => (st', Ok tt)
  | (st', Raise e) => (st', Raise e)
  end.
Proof.
  unfold add, mbind, M_bind, mret, M_ret.
  destruct (add_entry is_eval k v st) as [st' [[] | e]]; reflexivity.
Qed.

Lemma empty_obs_lookup (category : string) :
  category = "loss" \/ category = "acc" \/ category = "ppl" ->
  empty_obs !! category = Some ∅.
Proof. intros [-> | [-> | ->]]; reflexivity. Qed.

Lemma step_state (st : reporter) (is_eval : bool) :
  step is_eval st =
  ({| tensorboard := tensorboard st; _step := (_step st + 1)%Z;
      obs_train := obs_train st;
      obs_train_local := if is_eval then empty_obs else obs_train_local st;
      obs_dev := obs_dev st;
      steps := if is_eval then steps st ++ [(_step st + 1)%Z] else steps st;
      log := log st; tb_events := tb_events st |}, Ok tt).
Proof. reflexivity. Qed.

Lemma np_mean_three (a b c : R) :
  np_mean [Fin a; Fin b; Fin c] = Fin ((a + b + c) / 3).
Proof. cbn. f_equal. field. Qed.

Lemma add_entry_outcome (is_eval : bool) (k : string) (v v' : pyfloat) (st : reporter) :
  snd (add_entry is_eval k v st) = snd (add_entry is_eval k v' st).
Proof.
  unfold add_entry. destruct (split_dot k) as [| c [| n [|]]]; try reflexivity.
  destruct (warned_fields k v st) as (Hwt & Hwl & Hwd & Hws & Hwn & Hwb & _).
  destruct (warned_fields k v' st) as (Hwt' & Hwl' & Hwd' & Hws' & Hwn' & Hwb' & _).
  destruct is_eval; msimp; rewrite ?Hwt, ?Hwl, ?Hwd, ?Hwt', ?Hwl', ?Hwd'.
  - destruct (obs_train st !! c) as [tc |]; msimp; [| reflexivity].
    rewrite ?Hwt, ?Hwl, ?Hwd, ?Hwt', ?Hwl', ?Hwd'.
    destruct (ensure_name c n tc (obs_train st) !! c) as [tc' |]; msimp; [| reflexivity].
    destruct (tc' !! n); msimp; [| reflexivity].
    rewrite ?Hwt, ?Hwl, ?Hwd, ?Hwt', ?Hwl', ?Hwd'.
    destruct (obs_train_local st !! c) as [lc |]; msimp; [| reflexivity].
    destruct (lc !! n); msimp; [| reflexivity].
    rewrite ?Hwt, ?Hwl, ?Hwd, ?Hwt', ?Hwl', ?Hwd', ?Hwb, ?Hwb'.
    destruct (obs_dev st !! c); msimp; [| reflexivity].
    rewrite ?Hwb, ?Hwb'. destruct (tensorboard st); reflexivity.
  - destruct (obs_train_local st !! c); reflexivity.
Qed.

Lemma add_single_outcome (is_eval : bool) (k : string) (v v' : pyfloat) (st : reporter) :
  snd (add [(k, Some v)] is_eval st) = snd (add [(k, Some v')] is_eval st).
Proof.
  rewrite !add_single. pose proof (add_entry_outcome is_eval k v v' st) as H.
  destruct (add_entry is_eval k v st) as [s1 [? | e1]],
           (add_entry is_eval k v' st) as [s2 [? | e2]]; cbn in *; congruence.
Qed.

Lemma add_train_one (st : reporter) (k category name : string) (v : pyfloat)
    (lc : gmap string (list pyfloat)) :
  split_dot k = [category; name] ->
  obs_train_local st !! category = Some lc ->
  is_inf v = false ->
  exists st',
    add [(k, Some v)] false st = (st', Ok tt) /\
    obs_train_local st' =
      <[category := <[name := default [] (lc !! name) ++ [v]]> lc]> (obs_train_local st) /\
    obs_train st' = obs_train st /\ obs_dev st' = obs_dev st /\
    steps st' = steps st /\ _step st' = _step st.
Proof.
  intros Hs Hl Hv. rewrite add_single, (add_entry_train st k category name v lc Hs Hl).
  rewrite warned_finite by exact Hv.
  eexists. split; [reflexivity |]. repeat split.
Qed.

Lemma step_train (st : reporter) :
  exists st',
    step false st = (st', Ok tt) /\
    obs_train_local st' = obs_train_local st /\
    obs_train st' = obs_train st /\ obs_dev st' = obs_dev st /\
    steps st' = steps st /\ _step st' = (_step st + 1)%Z.
Proof. eexists. split; [reflexivity |]. repeat split. Qed.

(** C7: from a fresh local buffer (after construction or an evaluation
    [step]), three training [add]s of the same metric, each followed by
    [step(False)], and then an evaluation [add]: the evaluation [add]
    appends the arithmetic mean of the three training values to the
    train history of the metric and the dev value to its dev history;
    the following [step(True)] appends the step count (4 steps after the
    start) to [steps] and clears the local buffer. *)
Theorem eval_flushes_train_mean (st : reporter) (k category name : string)
    (x1 x2 x3 : R) (d : pyfloat) (tc dc : gmap string (list pyfloat))
    (Hs : split_dot k = [category; name])
    (Hcat : category = "loss" \/ category = "acc" \/ category = "ppl")
    (Hfresh : obs_train_local st = empty_obs)
    (Ht : obs_train st !! category = Some tc)
    (Hd : obs_dev st !! category = Some dc) :
  exists st4 st5,
    (_ ← add [(k, Some (Fin x1))] false; _ ← step false;
     _ ← add [(k, Some (Fin x2))] false; _ ← step false;
     _ ← add [(k, Some (Fin x3))] false; _ ← step false;
     add [(k, Some d)] true) st = (st4, Ok tt) /\
    obs_train st4 =
      <[category := <[name := default [] (tc !! name) ++ [Fin ((x1 + x2 + x3) / 3)]]> tc]>
        (obs_train st) /\
    obs_dev st4 = <[category := <[name := default [] (dc !! name) ++ [d]]> dc]> (obs_dev st) /\
    step true st4 = (st5, Ok tt) /\
    steps st5 = steps st ++ [(_step st + 4)%Z] /\
    obs_train_local st5 = empty_obs.
Proof.
  assert (Hl0 : obs_train_local st !! category = Some ∅).
  { rewrite Hfresh. apply empty_obs_lookup. exact Hcat. }
  destruct (add_train_one st k category name (Fin x1) ∅ Hs Hl0 eq_refl)
    as (s1 & R1 & L1 & T1 & D1 & S1 & N1).
  rewrite lookup_empty in L1. cbn [default app] in L1.
  destruct (step_train s1) as (s2 & R2 & L2 & T2 & D2 & S2 & N2).
  assert (Hl2 : obs_train_local s2 !! category = Some (<[name := [Fin x1]]> ∅)).
  { rewrite L2, L1. apply lookup_insert_eq. }
  destruct (add_train_one s2 k category name (Fin x2) _ Hs Hl2 eq_refl)
    as (s3 & R3 & L3 & T3 & D3 & S3 & N3).
  rewrite lookup_insert_eq, insert_insert_eq in L3. cbn [default app] in L3.
  destruct (step_train s3) as (s4 & R4 & L4 & T4 & D4 & S4 & N4).
  assert (Hl4 : obs_train_local s4 !! category = Some (<[name := [Fin x1; Fin x2]]> ∅)).
  { rewrite L4, L3. apply lookup_insert_eq. }
  destruct (add_train_one s4 k category name (Fin x3) _ Hs Hl4 eq_refl)
    as (s5 & R5 & L5 & T5 & D5 & S5 & N5).
  rewrite lookup_insert_eq, insert_insert_eq in L5. cbn [default app] in L5.
  destruct (step_train s5) as (s6 & R6 & L6 & T6 & D6 & S6 & N6).
  assert (Hl6 : obs_train_local s6 !! category =
                Some (<[name := [Fin x1; Fin x2; Fin x3]]> ∅)).
  { rewrite L6, L5. apply lookup_insert_eq. }
  assert (Ht6 : obs_train s6 !! category = Some tc) by congruence.
  assert (Hd6 : obs_dev s6 !! category = Some dc) by congruence.
  destruct (add_entry_eval s6 k category name d tc _ dc _ Hs Ht6 Hl6
              (lookup_insert_eq _ _ _) Hd6)
    as (s7 & R7 & T7 & D7 & L7 & S7 & N7 & _).
  exists s7. eexists.
  unfold mbind, M_bind. rewrite R1, R2, R3, R4, R5, R6, add_single, R7.
  split; [reflexivity |].
  rewrite T7, D7, np_mean_three, T6, T5, T4, T3, T2, T1, D6, D5, D4, D3, D2, D1.
  split; [reflexivity |]. split; [reflexivity |].
  split; [apply step_state |]. cbn [steps obs_train_local].
  split; [| reflexivity].
  rewrite S7, N7, S6, S5, S4, S3, S2, S1, N6, N5, N4, N3, N2, N1.
  do 2 f_equal. lia.
Qed.

Lemma eval_flushes_train_mean_witness :
  split_dot "loss.att" = ["loss"; "att"] /\
  obs_train_local (init true) = empty_obs /\
  exists st4 st5,
    (_ ← add [("loss.att", Some (Fin 1))] false; _ ← step false;
     _ ← add [("loss.att", Some (Fin 2))] false; _ ← step false;
     _ ← add [("loss.att", Some (Fin 6))] false; _ ← step false;
     add [("loss.att", Some (Fin 5))] true) (init true) = (st4, Ok tt) /\
    obs_train st4 =
      <["loss" := <["att" := [Fin ((1 + 2 + 6) / 3)]]> ∅]> empty_obs /\
    obs_dev st4 = <["loss" := <["att" := [Fin 5]]> ∅]> empty_obs /\
    step true st4 = (st5, Ok tt) /\
    steps st5 = [4%Z] /\
    obs_train_local st5 = empty_obs.
Proof.
  split; [reflexivity |]. split; [reflexivity |].
  apply (eval_flushes_train_mean (init true) "loss.att" "loss" "att" 1 2 6 (Fin 5) ∅ ∅
           eq_refl (or_introl eq_refl) eq_refl eq_refl eq_refl).
Defined.

(** C8: an infinite value does not change whether [Reporter.add]
    returns or raises (the outcome is the one for the finite value 0);
    a warning naming the key is logged first and the value is then stored
    like any other: a training value is appended to the local buffer and
    the call returns; an evaluation value whose name is buffered is
    appended to the dev history and the call returns. *)
Theorem inf_value_warns_not_raises (st : reporter) (is_eval : bool)
    (k category name : string) (v : pyfloat)
    (Hs : split_dot k = [category; name]) (Hv : is_inf v = true) :
  snd (add [(k, Some v)] is_eval st) = snd (add [(k, Some (Fin 0))] is_eval st) /\
  (forall lc, obs_train_local st !! category = Some lc ->
     exists st', add [(k, Some v)] false st = (st', Ok tt) /\
       obs_train_local st' =
         <[category := <[name := default [] (lc !! name) ++ [v]]> lc]> (obs_train_local st) /\
       log st' = log st ++ [LogWarning (inf_warning k)]) /\
  (forall tc lc dc vals,
     obs_train st !! category = Some tc ->
     obs_train_local st !! category = Some lc -> lc !! name = Some vals ->
     obs_dev st !! category = Some dc ->
     exists st', add [(k, Some v)] true st = (st', Ok tt) /\
       obs_dev st' = <[category := <[name := default [] (dc !! name) ++ [v]]> dc]> (obs_dev st) /\
       log st' = log st ++ [LogWarning (inf_warning k);
                            LogInfoTrainMean k (np_mean vals); LogInfoDev k v]).
Proof.
  split; [apply add_single_outcome |]. split.
  - intros lc Hl. rewrite add_single, (add_entry_train st k category name v lc Hs Hl).
    destruct (warned_fields k v st) as (_ & _ & _ & _ & _ & _ & Hg).
    rewrite Hv in Hg. eexists. split; [reflexivity |]. split; [reflexivity |].
    cbn [with_local log]. exact Hg.
  - intros tc lc dc vals Ht Hl Hn Hd.
    destruct (add_entry_eval st k category name v tc lc dc vals Hs Ht Hl Hn Hd)
      as (st' & R & _ & D & _ & _ & _ & G).
    rewrite add_single, R. exists st'. split; [reflexivity |]. split; [exact D |].
    rewrite G, Hv. reflexivity.
Qed.

Lemma inf_value_warns_not_raises_witness :
  split_dot "loss.att" = ["loss"; "att"] /\ is_inf PosInf = true /\
  snd (add [("loss.att", Some PosInf)] false (init true)) =
  snd (add [("loss.att", Some (Fin 0))] false (init true)).
Proof.
  split; [reflexivity |]. split; [reflexivity |].
  apply (inf_value_warns_not_raises (init true) false "loss.att" "loss" "att" PosInf
           eq_refl eq_refl).
Defined.

(** C10: for a key [category.name] whose category is present in the
    three dicts, [add] with [is_eval=True] raises [KeyError], leaving the
    dev history unchanged, exactly when [name] is absent from the local
    training buffer of the category, and returns normally exactly when it
    is present; right after [step(True)] (which clears the buffer) an
    evaluation [add] of a loss, acc or ppl key always raises [KeyError]. *)
Theorem eval_unbuffered_name_raises (st : reporter) (k category name : string)
    (v : pyfloat) (tc lc dc : gmap string (list pyfloat))
    (Hs : split_dot k = [category; name])
    (Ht : obs_train st !! category = Some tc)
    (Hl : obs_train_local st !! category = Some lc)
    (Hd : obs_dev st !! category = Some dc) :
  ((exists st', add [(k, Some v)] true st = (st', Raise KeyError) /\
                obs_dev st' = obs_dev st) <-> lc !! name = None) /\
  ((exists st', add [(k, Some v)] true st = (st', Ok tt)) <-> lc !! name <> None) /\
  (category = "loss" \/ category = "acc" \/ category = "ppl" ->
   exists st', (_ ← step true; add [(k, Some v)] true) st = (st', Raise KeyError) /\
               obs_dev st' = obs_dev st).
Proof.
  assert (Hmiss : forall st0 tc0 lc0,
            obs_train st0 !! category = Some tc0 ->
            obs_train_local st0 !! category = Some lc0 -> lc0 !! name = None ->
            exists st', add [(k, Some v)] true st0 = (st', Raise KeyError) /\
                        obs_dev st' = obs_dev st0).
  { intros st0 tc0 lc0 Ht0 Hl0 Hn0.
    destruct (add_entry_eval_missing st0 k category name v tc0 lc0 Hs Ht0 Hl0 Hn0)
      as (st' & R & D & _).
    exists st'. rewrite add_single, R. split; [reflexivity | exact D]. }
  split; [| split].
  - split.
    + intros (st' & R & _). destruct (lc !! name) as [vals |] eqn:Hn; [| reflexivity].
      destruct (add_entry_eval st k category name v tc lc dc vals Hs Ht Hl Hn Hd)
        as (st'' & R' & _). rewrite add_single, R' in R. discriminate R.
    + intros Hn. exact (Hmiss st tc lc Ht Hl Hn).
  - split.
    + intros (st' & R) Hn. destruct (Hmiss st tc lc Ht Hl Hn) as (st'' & R' & _).
      rewrite R in R'. discriminate R'.
    + intros Hn. destruct (lc !! name) as [vals |] eqn:Hn'; [| congruence].
      destruct (add_entry_eval st k category name v tc lc dc vals Hs Ht Hl Hn' Hd)
        as (st'' & R' & _). exists st''. rewrite add_single, R'. reflexivity.
  - intros Hcat. unfold mbind, M_bind. rewrite step_state.
    match goal with
    | |- context [add _ true ?s0] => edestruct (Hmiss s0 tc ∅) as (st' & R & D)
    end; cbn [obs_train obs_train_local].
    + exact Ht.
    + apply empty_obs_lookup. exact Hcat.
    + apply lookup_empty.
    + exists st'. split; [exact R | exact D].
Qed.

Lemma eval_unbuffered_name_raises_witness :
  snd (add [("loss.att", Some (Fin 1))] true (init true)) = Raise KeyError /\
  ((exists st', add [("loss.att", Some (Fin 1))] true (init true) = (st', Raise KeyError) /\
                obs_dev st' = obs_dev (init true)) <-> (∅ : gmap string (list pyfloat)) !! "att" = None).
Proof.
  split.
  - vm_compute. reflexivity.
  - apply (eval_unbuffered_name_raises (init true) "loss.att" "loss" "att" (Fin 1) ∅ ∅ ∅
             eq_refl eq_refl eq_refl eq_refl).
Defined.

End ReporterFacts.

(** ** Dataset construction *)

Module DatasetFacts.
Import Dataset.

(** C6 (amended): the constructor never compares [shuffle] with
    [sort_utt]. Its only exception of its own is the unbound
    [dataset_path] when [label_type] contains none of kana, kanji, word,
    phone; otherwise it succeeds whatever the two flags and stores both. *)
Theorem init_never_checks_shuffle_sort (read_csv : string -> list row)
    (sort_by_frame_num : bool -> list row -> list row)
    (sort_by_input_path : list row -> list row)
    (concat_index : list row -> list (row * Z))
    (model_type data_type data_size label_type : string) (batch_size : Z)
    (vocab_file_path : string) (max_epoch : option Z) (splice num_stack num_skip : Z)
    (shuffle sort_utt reverse : bool) (sort_stop_epoch : option Z) (num_gpus : Z)
    (use_cuda volatile : bool) (save_format : string) :
  let r := init read_csv sort_by_frame_num sort_by_input_path concat_index
             model_type data_type data_size label_type batch_size
             vocab_file_path max_epoch splice num_stack num_skip shuffle sort_utt
             reverse sort_stop_epoch num_gpus use_cuda volatile save_format in
  (r = Raise UnboundLocalError /\ label_recognised label_type = false) \/
  (label_recognised label_type = true /\
   exists d, r = Ok d /\
     Dataset.shuffle d = shuffle /\ Dataset.sort_utt d = sort_utt).
Proof.
  cbv zeta. unfold init, label_recognised.
  destruct (str_contains "kana" label_type); cbn [orb];
  [| destruct (str_contains "kanji" label_type || str_contains "word" label_type) eqn:Hkw;
     [cbn [orb] | cbn [orb];
      destruct (str_contains "phone" label_type); [| left; split; reflexivity]]];
  (right; split; [reflexivity |]; eexists; split; [reflexivity |];
   split; reflexivity).
Qed.

(** C6 counterexample: a kana dataset built with [shuffle=True] and
    [sort_utt=True] is constructed without any error and keeps both
    flags (here with a two-row manifest and sorts and [concat] that
    keep the rows as they are). *)
Lemma dataset_shuffle_and_sort_accepted :
  exists d,
    init (fun _ => [Build_row 100 "a.npy" "y"; Build_row 300 "b.npy" "x"])
      (fun _ rows => rows) (fun rows => rows) (fun rows => map (fun r => (r, 0%Z)) rows)
      "attention" "train" "subset" "kana_divide" 32 "vocab.txt" None 1 1 1
      true true false None 1 false false "numpy" = Ok d /\
    Dataset.shuffle d = true /\ Dataset.sort_utt d = true.
Proof.
  eexists. split; [reflexivity |]. split; reflexivity.
Qed.

End DatasetFacts.

(** ** Further properties of the scorer *)

Module CerExtra.
Import Cer.
Section Extra.
Variable ch : Type.
Variable ch_eqb : ch -> ch -> bool.
Variables at_sign gt_sign underscore : ch.
Variable compute_wer : list (list ch) -> list (list ch) -> option (Q * Q * Q * Q).

Local Open Scope Q_scope.

Lemma Qplus_swap (x a b : Q) : x + a + b = x + b + a.
Proof.
  destruct x as [xn xd], a as [an ad], b as [bn bd]. unfold Qplus; cbn.
  f_equal.
  - rewrite !Pos2Z.inj_mul. ring.
  - rewrite <- !Pos.mul_assoc, (Pos.mul_comm ad bd). reflexivity.
Qed.

Let add_char := add_char ch ch_eqb underscore compute_wer.
Let add_word := add_word ch ch_eqb underscore compute_wer.
Let score_utt := score_utt ch ch_eqb at_sign gt_sign underscore compute_wer.

Lemma add_char_comm (t : tally) (r h r' h' : str ch) :
  add_char (add_char t r h) r' h' = add_char (add_char t r' h') r h.
Proof.
  subst add_char. unfold Cer.add_char.
  destruct (compute_wer _ (chars_of ch (remove_us ch ch_eqb underscore h))) as [[[[a1 b1] c1] d1] |];
  destruct (compute_wer _ (chars_of ch (remove_us ch ch_eqb underscore h'))) as [[[[a2 b2] c2] d2] |];
    cbn; try reflexivity.
  f_equal; try apply Qplus_swap; lia.
Qed.

Lemma add_word_comm (t : tally) (r h r' h' : str ch) :
  add_word (add_word t r h) r' h' = add_word (add_word t r' h') r h.
Proof.
  subst add_word. unfold Cer.add_word.
  destruct (compute_wer _ (split_on ch ch_eqb underscore h)) as [[[[a1 b1] c1] d1] |];
  destruct (compute_wer _ (split_on ch ch_eqb underscore h')) as [[[[a2 b2] c2] d2] |];
    cbn; try reflexivity.
  f_equal; try apply Qplus_swap; lia.
Qed.

Lemma add_char_word (t : tally) (r h r' h' : str ch) :
  add_char (add_word t r h) r' h' = add_word (add_char t r' h') r h.
Proof.
  subst add_char add_word. unfold Cer.add_char, Cer.add_word.
  destruct (compute_wer _ (split_on ch ch_eqb underscore h)) as [[[[a1 b1] c1] d1] |];
  destruct (compute_wer _ (chars_of ch (remove_us ch ch_eqb underscore h'))) as [[[[a2 b2] c2] d2] |];
    cbn; reflexivity.
Qed.

Lemma score_utt_comm (wl att : bool) (t : tally) (r h r' h' : str ch) :
  score_utt wl att (score_utt wl att t r h) r' h' =
  score_utt wl att (score_utt wl att t r' h') r h.
Proof.
  subst score_utt. unfold Cer.score_utt. fold add_char add_word.
  destruct wl.
  - rewrite !add_char_word, add_word_comm, add_char_comm. reflexivity.
  - apply add_char_comm.
Qed.

Lemma fold_score_perm (wl att : bool) (utts utts' : list (str ch * str ch)) :
  Permutation utts utts' -> forall t,
  fold_left (fun t u => score_utt wl att t u.1 u.2) utts t =
  fold_left (fun t u => score_utt wl att t u.1 u.2) utts' t.
Proof.
  induction 1 as [| x l l' _ IH | x y l | l l' l'' _ IH1 _ IH2]; intros t; cbn.
  - reflexivity.
  - apply IH.
  - rewrite score_utt_comm. reflexivity.
  - rewrite IH1. apply IH2.
Qed.

(** [do_eval_cer] gives the same result for any reordering of the
    utterances of a pass: the per-utterance counts are only summed. *)
Theorem do_eval_cer_order_independent (word_level attention : bool)
    (utts utts' : list (str ch * str ch)) (Hp : Permutation utts utts') :
  do_eval_cer ch ch_eqb at_sign gt_sign underscore compute_wer word_level attention utts =
  do_eval_cer ch ch_eqb at_sign gt_sign underscore compute_wer word_level attention utts'.
Proof.
  unfold do_eval_cer, pass_tally.
  rewrite (fold_score_perm word_level attention utts utts' Hp). reflexivity.
Qed.

Lemma remove_us_collapse (b : bool) (s : str ch) :
  remove_us ch ch_eqb underscore (collapse_us_from ch ch_eqb underscore b s) =
  remove_us ch ch_eqb underscore s.
Proof.
  revert b. induction s as [| c s IH]; intros b; cbn; [reflexivity |].
  unfold remove_us in *. destruct (ch_eqb c underscore) eqn:Hc; cbn.
  - destruct b; cbn; rewrite ?Hc; cbn; apply IH.
  - rewrite Hc. cbn. f_equal. apply IH.
Qed.

Lemma remove_us_idem (s : str ch) :
  remove_us ch ch_eqb underscore (remove_us ch ch_eqb underscore s) =
  remove_us ch ch_eqb underscore s.
Proof.
  unfold remove_us. induction s as [| c s IH]; cbn; [reflexivity |].
  destruct (ch_eqb c underscore) eqn:Hc; cbn; rewrite ?Hc; cbn; [apply IH | f_equal; apply IH].
Qed.

Lemma remove_us_garbage (s : str ch) :
  remove_us ch ch_eqb underscore (remove_garbage ch ch_eqb at_sign gt_sign s) =
  List.filter (fun c => negb (ch_eqb c at_sign || ch_eqb c gt_sign || ch_eqb c underscore)) s.
Proof.
  unfold remove_us, remove_garbage. induction s as [| c s IH]; cbn; [reflexivity |].
  destruct (ch_eqb c at_sign), (ch_eqb c gt_sign), (ch_eqb c underscore) eqn:Hu;
    cbn; rewrite ?Hu; cbn; rewrite ?IH; reflexivity.
Qed.

Lemma add_char_remove_us (t : tally) (r h : str ch) :
  add_char t r h =
  add_char t (remove_us ch ch_eqb underscore r) (remove_us ch ch_eqb underscore h).
Proof. subst add_char. unfold Cer.add_char. rewrite !remove_us_idem. reflexivity. Qed.

(** The character-level counts of an utterance are those of the
    reference and the hypothesis (cut at its first ['>'] for an attention
    model) with every ['@'], ['>'] and ['_'] removed: collapsing runs of
    ['_'] only matters to the word-level counts. *)
Theorem score_utt_char_level (word_level attention : bool) (t : tally) (ref hyp : str ch) :
  let strip := List.filter (fun c => negb (ch_eqb c at_sign || ch_eqb c gt_sign ||
                                          ch_eqb c underscore)) in
  let hyp' := if attention then truncate_eos ch ch_eqb gt_sign hyp else hyp in
  let clean s := collapse_us ch ch_eqb underscore (remove_garbage ch ch_eqb at_sign gt_sign s) in
  score_utt word_level attention t ref hyp =
  add_char (if word_level then add_word t (clean ref) (clean hyp') else t)
           (strip ref) (strip hyp').
Proof.
  cbv zeta. subst score_utt. unfold Cer.score_utt. fold add_char add_word.
  rewrite add_char_remove_us. unfold collapse_us.
  rewrite !remove_us_collapse, !remove_us_garbage. reflexivity.
Qed.

Lemma truncate_eos_app (Hgt : ch_eqb gt_sign gt_sign = true) (h1 h2 : str ch) :
  truncate_eos ch ch_eqb gt_sign (h1 ++ gt_sign :: h2) = truncate_eos ch ch_eqb gt_sign h1.
Proof.
  induction h1 as [| c h1 IH]; cbn.
  - rewrite Hgt. reflexivity.
  - destruct (ch_eqb c gt_sign); [reflexivity | f_equal; exact IH].
Qed.

(** For an attention model, what follows the first ['>'] of a
    hypothesis does not change any count. *)
Theorem score_utt_after_eos_ignored (Hgt : ch_eqb gt_sign gt_sign = true)
    (word_level : bool) (t : tally) (ref h1 h2 : str ch) :
  score_utt word_level true t ref (h1 ++ gt_sign :: h2) =
  score_utt word_level true t ref h1.
Proof.
  subst score_utt. unfold Cer.score_utt. rewrite (truncate_eos_app Hgt). reflexivity.
Qed.

End Extra.

Lemma do_eval_cer_order_independent_witness :
  let u1 := (list_ascii_of_string "ab", list_ascii_of_string "ab") in
  let u2 := (list_ascii_of_string "c", list_ascii_of_string "cd") in
  Permutation [u1; u2] [u2; u1] /\
  do_eval_cer ascii Ascii.eqb "@"%char ">"%char "_"%char Fixtures.all_insertions
    false false [u1; u2] =
  do_eval_cer ascii Ascii.eqb "@"%char ">"%char "_"%char Fixtures.all_insertions
    false false [u2; u1].
Proof.
  cbv zeta. split; [apply perm_swap |].
  apply (do_eval_cer_order_independent ascii Ascii.eqb "@"%char ">"%char "_"%char
           Fixtures.all_insertions false false _ _ (perm_swap _ _ [])).
Defined.

Lemma score_utt_after_eos_ignored_witness :
  Ascii.eqb ">" ">" = true /\
  Cer.score_utt ascii Ascii.eqb "@"%char ">"%char "_"%char Fixtures.all_insertions
    false true tally0 (list_ascii_of_string "ab")
    (list_ascii_of_string "ab" ++ ">"%char :: list_ascii_of_string "xyz") =
  Cer.score_utt ascii Ascii.eqb "@"%char ">"%char "_"%char Fixtures.all_insertions
    false true tally0 (list_ascii_of_string "ab") (list_ascii_of_string "ab").
Proof.
  split; [reflexivity |].
  apply (score_utt_after_eos_ignored ascii Ascii.eqb "@"%char ">"%char "_"%char
           Fixtures.all_insertions eq_refl).
Defined.

End CerExtra.

(** ** Further properties of the learning-rate controller *)

Module ControllerExtra.
Import Controller ControllerFacts.
Local Open Scope R_scope.

Ltac split_decay :=
  repeat match goal with
         | |- context [Rlt_dec ?a ?b] => destruct (Rlt_dec a b)
         | |- context [Z.ltb ?a ?b] => destruct (Z.ltb a b) eqn:?
         | |- context [String.eqb ?a ?b] => destruct (String.eqb a b) eqn:?
         end.

(** Before [decay_start_epoch], [decay_lr] returns the optimizer and the
    rate unchanged; with a [decay_type] other than ['metric'] and
    ['epoch'] it changes nothing at all. *)
Theorem decay_lr_frozen (c : controller) (opt : optimizer) (lr : R) (epoch : Z) (value : R) :
  ((epoch < decay_start_epoch c)%Z ->
   (decay_lr c opt lr epoch value).1.2 = opt /\ (decay_lr c opt lr epoch value).2 = lr) /\
  (decay_type c <> "metric" -> decay_type c <> "epoch" ->
   decay_lr c opt lr epoch value = (c, opt, lr)).
Proof.
  split.
  - intros He. unfold decay_lr. apply Z.ltb_lt in He. rewrite He. split_decay; split; reflexivity.
  - intros Hm He. unfold decay_lr.
    apply String.eqb_neq in Hm, He. rewrite Hm, He. split_decay; reflexivity.
Qed.

Lemma decay_lr_state (c : controller) (opt : optimizer) (lr : R) (epoch : Z) (value : R) :
  let c' := (decay_lr c opt lr epoch value).1.1 in
  best_value c' <= best_value c /\
  decay_patient_epoch c' = decay_patient_epoch c /\
  decay_rate c' = decay_rate c /\ decay_type c' = decay_type c /\
  decay_start_epoch c' = decay_start_epoch c /\ lower_better c' = lower_better c /\
  ((0 <= not_improved_epoch c <= Z.max 0 (decay_patient_epoch c))%Z ->
   (0 <= not_improved_epoch c' <= Z.max 0 (decay_patient_epoch c))%Z).
Proof.
  cbv zeta. unfold decay_lr.
  split_decay; cbn; repeat split; try lra; try reflexivity; intros; lia.
Qed.

Lemma decay_lr_lr (c : controller) (opt : optimizer) (lr : R) (epoch : Z) (value : R) :
  0 <= decay_rate c <= 1 -> 0 <= lr ->
  0 <= (decay_lr c opt lr epoch value).2 <= lr.
Proof.
  intros Hr Hl. destruct (decay_lr_rate c opt lr epoch value) as [-> | ->]; [lra |].
  split; [apply Rmult_le_pos; lra |].
  rewrite <- (Rmult_1_r lr) at 2. apply Rmult_le_compat_l; lra.
Qed.

(** Over any sequence of [decay_lr] calls, [best_value] never increases;
    [not_improved_epoch], when it starts between 0 and
    [max 0 decay_patient_epoch], stays there; and with a decay rate in
    [0, 1] a non-negative rate stays non-negative and never increases. *)
Theorem run_decay_invariants (c : controller) (opt : optimizer) (lr : R) (evs : list (Z * R)) :
  let '(c', _, lr') := run_decay c opt lr evs in
  best_value c' <= best_value c /\
  ((0 <= not_improved_epoch c <= Z.max 0 (decay_patient_epoch c))%Z ->
   (0 <= not_improved_epoch c' <= Z.max 0 (decay_patient_epoch c'))%Z) /\
  (0 <= decay_rate c <= 1 -> 0 <= lr -> 0 <= lr' <= lr).
Proof.
  revert c opt lr. induction evs as [| [e v] evs IH]; intros c opt lr; cbn.
  - split; [lra |]. split; [tauto | lra].
  - destruct (decay_lr_state c opt lr e v) as (Hb & Hp & Hr & _ & _ & _ & Hn).
    pose proof (decay_lr_lr c opt lr e v) as Hl.
    destruct (decay_lr c opt lr e v) as [[c1 o1] l1] eqn:Hd. cbn in *.
    specialize (IH c1 o1 l1).
    destruct (run_decay c1 o1 l1 evs) as [[c2 o2] l2].
    destruct IH as (IHb & IHn & IHl).
    split; [lra |]. split.
    + intros H. apply IHn. rewrite Hp. apply Hn, H.
    + intros Hr' Hl0. rewrite Hr in IHl. specialize (Hl Hr' Hl0).
      specialize (IHl Hr' (proj1 Hl)). lra.
Qed.

(** With [lower_better=False], [decay_lr] behaves as the same controller
    with [lower_better=True] on the negated metric value. *)
Theorem decay_lr_higher_better (c : controller) (opt : optimizer) (lr : R)
    (epoch : Z) (value : R) (Hl : lower_better c = false) :
  decay_lr c opt lr epoch value =
  let '(c', opt', lr') := decay_lr (set_lower_better c true) opt lr epoch (- value) in
  (set_lower_better c' false, opt', lr').
Proof.
  unfold decay_lr. rewrite Hl. cbn [lower_better set_lower_better].
  replace (value * -1) with (- value) by ring.
  destruct c; cbn in *; subst. split_decay; reflexivity.
Qed.

(** A controller built with a positive [warmup_start_learning_rate] [ws]
    and a positive [warmup_nsteps] [n] warms up linearly: step [s] gets
    the rate [ws + (learning_rate - ws) * s / n], so step 0 gets [ws] and
    step [n] gets [learning_rate]. *)
Theorem linear_warmup_endpoints (learning_rate : R) (dtype : string) (start : Z)
    (rate : R) (patience : Z) (lb : bool) (best model_size ws : R) (nsteps : Z)
    (factor : R) (c : controller) (opt : optimizer) (lr : R)
    (Hc : init learning_rate dtype start rate patience lb best model_size ws nsteps
            factor = Ok c)
    (Hws : 0 < ws) (Hn : (0 < nsteps)%Z) :
  (forall step, warmup_lr c opt lr step =
     Ok (set_groups "lr" (ws + (learning_rate - ws) * IZR step / IZR nsteps) opt,
         ws + (learning_rate - ws) * IZR step / IZR nsteps)) /\
  warmup_lr c opt lr 0 = Ok (set_groups "lr" ws opt, ws) /\
  warmup_lr c opt lr nsteps = Ok (set_groups "lr" learning_rate opt, learning_rate).
Proof.
  assert (Hc' : c = {| lr_max := learning_rate; decay_type := dtype;
              decay_start_epoch := start; decay_rate := rate;
              decay_patient_epoch := patience; not_improved_epoch := 0;
              lower_better := lb; best_value := best; lr_init := ws;
              warmup_start_lr := ws; warmup_nsteps := nsteps |}).
  { unfold init in Hc. apply Z.ltb_lt in Hn as Hn'. rewrite Hn' in Hc.
    destruct (Rlt_dec 0 ws) as [_ | H]; [| lra].
    destruct (String.eqb dtype "warmup"); injection Hc; intros; subst; reflexivity. }
  subst c.
  assert (HN : IZR nsteps <> 0) by (apply not_0_IZR; lia).
  assert (Hf : forall step, warmup_lr {| lr_max := learning_rate; decay_type := dtype;
              decay_start_epoch := start; decay_rate := rate;
              decay_patient_epoch := patience; not_improved_epoch := 0;
              lower_better := lb; best_value := best; lr_init := ws;
              warmup_start_lr := ws; warmup_nsteps := nsteps |} opt lr step =
     Ok (set_groups "lr" (ws + (learning_rate - ws) * IZR step / IZR nsteps) opt,
         ws + (learning_rate - ws) * IZR step / IZR nsteps)).
  { intros step. rewrite warmup_lr_linear by (cbn; lra || lia). cbn.
    replace ((learning_rate - ws) / IZR nsteps * IZR step + ws)
      with (ws + (learning_rate - ws) * IZR step / IZR nsteps) by (field; exact HN).
    reflexivity. }
  split; [exact Hf |]. split.
  - rewrite Hf. replace (ws + (learning_rate - ws) * IZR 0 / IZR nsteps) with ws
      by (field; exact HN). reflexivity.
  - rewrite Hf. replace (ws + (learning_rate - ws) * IZR nsteps / IZR nsteps) with learning_rate
      by (field; exact HN). reflexivity.
Qed.

Lemma np_power_split (x : R) : 0 < x -> np_power x (-0.5) = x * np_power x (-1.5).
Proof.
  intros Hx. unfold np_power. replace (-0.5) with (1 + -1.5) by lra.
  rewrite Rpower_plus, Rpower_1 by exact Hx. reflexivity.
Qed.

Lemma np_power_anti (a b y : R) : 0 < a <= b -> 0 <= y -> np_power b (- y) <= np_power a (- y).
Proof.
  intros Hab Hy. unfold np_power. rewrite !Rpower_Ropp.
  apply Rinv_le_contravar; [apply exp_pos | apply Rle_Rpower_l; lra].
Qed.

(** With [warmup_start_lr <= 0] and [n = warmup_nsteps > 0], [warmup_lr]
    gives [lr_init * s * n^-1.5] at the steps [1 <= s <= n] and
    [lr_init * s^-0.5] from step [n] on; a non-negative [lr_init] thus
    peaks at [lr_init * n^-0.5], the rate of step [n]. *)
Theorem inverse_sqrt_warmup_peak (c : controller) (opt : optimizer) (lr : R)
    (Hws : warmup_start_lr c <= 0) (Hn : (0 < warmup_nsteps c)%Z) :
  let n := warmup_nsteps c in
  (forall step, (1 <= step <= n)%Z ->
     warmup_lr c opt lr step =
     Ok (set_groups "lr" (lr_init c * (IZR step * np_power (IZR n) (-1.5))) opt,
         lr_init c * (IZR step * np_power (IZR n) (-1.5)))) /\
  (forall step, (n <= step)%Z ->
     warmup_lr c opt lr step =
     Ok (set_groups "lr" (lr_init c * np_power (IZR step) (-0.5)) opt,
         lr_init c * np_power (IZR step) (-0.5))) /\
  (0 <= lr_init c -> forall step opt' lr', (1 <= step)%Z ->
     warmup_lr c opt lr step = Ok (opt', lr') ->
     lr' <= lr_init c * np_power (IZR n) (-0.5)).
Proof.
  cbv zeta. set (n := warmup_nsteps c) in *.
  assert (HN : 0 < IZR n) by (apply IZR_lt; exact Hn).
  assert (Ha : forall a b, 0 < a <= b -> np_power b (-1.5) <= np_power a (-1.5)).
  { intros a b Hab. replace (-1.5) with (- (3/2)) by lra. apply np_power_anti; lra. }
  assert (Hb : forall a b, 0 < a <= b -> np_power b (-0.5) <= np_power a (-0.5)).
  { intros a b Hab. replace (-0.5) with (- (1/2)) by lra. apply np_power_anti; lra. }
  assert (Hlow : forall step, (1 <= step <= n)%Z ->
     Rmin (np_power (IZR step) (-0.5)) (IZR step * np_power (IZR n) (-1.5)) =
     IZR step * np_power (IZR n) (-1.5)).
  { intros step Hs. assert (HS : 1 <= IZR step <= IZR n) by (split; apply IZR_le; lia).
    apply Rmin_right. rewrite np_power_split by lra.
    apply Rmult_le_compat_l; [lra | apply Ha; lra]. }
  assert (Hhigh : forall step, (n <= step)%Z ->
     Rmin (np_power (IZR step) (-0.5)) (IZR step * np_power (IZR n) (-1.5)) =
     np_power (IZR step) (-0.5)).
  { intros step Hs. assert (HS : IZR n <= IZR step) by (apply IZR_le; lia).
    apply Rmin_left. rewrite np_power_split by lra.
    apply Rmult_le_compat_l; [lra | apply Ha; lra]. }
  split; [| split].
  - intros step Hs. rewrite warmup_lr_inv_sqrt by exact Hws. fold n. rewrite Hlow by exact Hs.
    reflexivity.
  - intros step Hs. rewrite warmup_lr_inv_sqrt by exact Hws. fold n. rewrite Hhigh by exact Hs.
    reflexivity.
  - intros Hi step opt' lr' Hs Hw. rewrite warmup_lr_inv_sqrt in Hw by exact Hws.
    injection Hw as _ <-. fold n. apply Rmult_le_compat_l; [exact Hi |].
    destruct (Z.le_ge_cases step n) as [Hle | Hge].
    + rewrite Hlow by lia. rewrite (np_power_split (IZR n)) by lra.
      apply Rmult_le_compat_r; [left; apply np_power_pos | apply IZR_le; exact Hle].
    + rewrite Hhigh by lia. apply Hb. split; [lra | apply IZR_le; lia].
Qed.


Lemma decay_lr_higher_better_witness :
  lower_better (set_lower_better Fixtures.metric_ctl false) = false /\
  decay_lr (set_lower_better Fixtures.metric_ctl false) Fixtures.sgd 1 1%Z 5 =
  let '(c', opt', lr') :=
    decay_lr (set_lower_better (set_lower_better Fixtures.metric_ctl false) true)
      Fixtures.sgd 1 1%Z (- 5) in
  (set_lower_better c' false, opt', lr').
Proof.
  split; [reflexivity |].
  apply (decay_lr_higher_better (set_lower_better Fixtures.metric_ctl false) Fixtures.sgd
           1 1%Z 5 eq_refl).
Defined.

Lemma linear_warmup_endpoints_witness :
  exists c,
    init 1 "warmup" 0 (1/2) 1 true 10000 1 (1/10) 4000 1 = Ok c /\
    warmup_lr c Fixtures.sgd 1 4000%Z = Ok (set_groups "lr" 1 Fixtures.sgd, 1).
Proof.
  eexists. split; [reflexivity |].
  exact (proj2 (proj2 (linear_warmup_endpoints 1 "warmup" 0 (1/2) 1 true 10000 1 (1/10)
                          4000 1 _ Fixtures.sgd 1 eq_refl ltac:(lra) ltac:(lia)))).
Defined.

Lemma inverse_sqrt_warmup_peak_witness :
  warmup_start_lr Fixtures.metric_ctl <= 0 /\ (0 < warmup_nsteps Fixtures.metric_ctl)%Z /\
  warmup_lr Fixtures.metric_ctl Fixtures.sgd 1 4000%Z =
  Ok (set_groups "lr" (1 * (IZR 4000 * np_power (IZR 4000) (-1.5))) Fixtures.sgd,
      1 * (IZR 4000 * np_power (IZR 4000) (-1.5))).
Proof.
  split; [cbn; lra |]. split; [cbn; lia |].
  exact (proj1 (inverse_sqrt_warmup_peak Fixtures.metric_ctl Fixtures.sgd 1
                  ltac:(cbn; lra) ltac:(cbn; lia)) 4000%Z ltac:(cbn; lia)).
Defined.

End ControllerExtra.

(** ** Loading configurations, and the training logger *)

Module ConfigFacts.
Import Config.

Section Facts.
Variable V : Type.

Lemma override_dict (items : list (string * V)) (d : gmap string V) :
  NoDup items.*1 ->
  override V (YDict d) items = inl (YDict (list_to_map items ∪ d)).
Proof.
  revert d. induction items as [| [k v] items IH]; intros d Hnd; cbn [override].
  - rewrite list_to_map_nil, (left_id_L ∅ (∪)). reflexivity.
  - cbn in Hnd. apply NoDup_cons in Hnd as [Hk Hnd].
    rewrite IH by exact Hnd. rewrite list_to_map_cons, <- insert_union_l.
    rewrite <- insert_union_r; [reflexivity |].
    apply not_elem_of_list_to_map_1. exact Hk.
Qed.

Lemma read_yaml_str (fs : files V) (p : string) :
  read_yaml V fs (YStr p) = match fs !! p with Some d => inl d | None => inr IOError end.
Proof. reflexivity. Qed.

Lemma files_insert_eq (fs : files V) (p : string) (d : doc V) :
  (<[p := d]> fs) !! p = Some d.
Proof. apply lookup_insert_eq. Qed.

Lemma files_insert_ne (fs : files V) (p q : string) (d : doc V) :
  p <> q -> (<[p := d]> fs) !! q = fs !! q.
Proof. apply lookup_insert_ne. Qed.

(** When the config file names a ['parent'] file whose ['param'] entry is
    a dict, [load_config] returns the parent's dict overridden by the
    config's own ['param'] entries: a key has the config's value when the
    config has it and the parent's value otherwise. The ['parent'] entry
    of the parent file is not followed. *)
Theorem load_config_inherits (fs : files V) (config_path parent_path : string)
    (config config_parent : doc V) (child params : gmap string V)
    (Hc : fs !! config_path = Some config)
    (Hp : config !! "parent" = Some (YStr parent_path))
    (Hpf : fs !! parent_path = Some config_parent)
    (Hpp : config_parent !! "param" = Some (YDict params))
    (Hcp : config !! "param" = Some (YDict child)) :
  load_config V fs config_path = inl (YDict (child ∪ params)) /\
  (forall key, (child ∪ params) !! key =
               match child !! key with Some v => Some v | None => params !! key end) /\
  (parent_path <> config_path -> forall p,
     load_config V (<[parent_path := <["parent" := p]> config_parent]> fs) config_path =
     load_config V fs config_path).
Proof.
  assert (Hload : forall cp, cp !! "param" = Some (YDict params) ->
            parent_path <> config_path \/ cp = config_parent ->
            load_config V (<[parent_path := cp]> fs) config_path = inl (YDict (child ∪ params))).
  { intros cp Hcp' Hne. unfold load_config. rewrite read_yaml_str.
    destruct (decide (parent_path = config_path)) as [Heq | Hne'].
    - destruct Hne as [Hne | ->]; [contradiction |]. subst parent_path.
      rewrite files_insert_eq. assert (config = config_parent) by congruence. subst config.
      rewrite Hp, read_yaml_str, files_insert_eq. setoid_rewrite Hpp. setoid_rewrite Hcp.
      rewrite override_dict by apply NoDup_fst_map_to_list.
      rewrite list_to_map_to_list. reflexivity.
    - rewrite files_insert_ne by congruence.
      rewrite Hc, Hp, read_yaml_str, files_insert_eq, Hcp', Hcp.
      rewrite override_dict by apply NoDup_fst_map_to_list.
      rewrite list_to_map_to_list. reflexivity. }
  assert (Hfs : <[parent_path := config_parent]> fs = fs) by (apply insert_id; exact Hpf).
  split; [| split].
  - rewrite <- Hfs. apply Hload; [exact Hpp | right; reflexivity].
  - intros key. rewrite lookup_union. destruct (child !! key), (params !! key); reflexivity.
  - intros Hne p. rewrite Hload.
    + rewrite <- Hfs. symmetry. apply Hload; [exact Hpp | right; reflexivity].
    + rewrite lookup_insert_ne by congruence. exact Hpp.
    + left. exact Hne.
Qed.

End Facts.

Lemma load_config_inherits_witness :
  load_config nat Fixtures.example_fs "exp/conf.yml" =
  inl (YDict ({[ "batch_size" := 20%nat ]} ∪ <[ "batch_size" := 50%nat ]> {[ "n_epochs" := 25%nat ]})).
Proof.
  exact (proj1 (load_config_inherits nat Fixtures.example_fs "exp/conf.yml" "conf/base.yml"
                  _ _ _ _ eq_refl eq_refl eq_refl eq_refl eq_refl)).
Defined.

End ConfigFacts.

Module LoggingFacts.
Import Logging.

(** After [set_logger(save_path, key)], a record below [DEBUG] reaches no
    handler of the logger; a record at [DEBUG] or above reaches the
    logger's earlier handlers whose level it meets, then the new file
    handler, and from [WARNING] on also the new stream handler (before
    the file handler). A second [set_logger] call on a fresh logger makes
    every emitted record reach each handler twice. *)
Theorem set_logger_dispatch (reg : registry) (save_path key : string) :
  let sh := {| h_kind := StreamHandler; h_level := WARNING; h_format := log_format |} in
  let fh := {| h_kind := FileHandler save_path; h_level := DEBUG; h_format := log_format |} in
  let reg1 := (set_logger reg save_path key).1 in
  (forall level, (level < DEBUG)%Z -> emitting reg1 key level = []) /\
  (forall level, (DEBUG <= level)%Z ->
     emitting reg1 key level =
     List.filter (fun h => Z.leb (h_level h) level) (handlers (get_logger reg key)) ++
     (if Z.leb WARNING level then [sh; fh] else [fh])) /\
  (reg !! key = None -> forall level,
     emitting (set_logger reg1 save_path key).1 key level =
     emitting reg1 key level ++ emitting reg1 key level).
Proof.
  unfold set_logger, emitting, get_logger, effective_level. cbv zeta.
  cbn [fst snd]. rewrite !lookup_insert_eq. cbn [default Datatypes.id l_level handlers].
  unfold DEBUG, NOTSET, WARNING. change (Z.eqb 10 0) with false. cbn iota.
  split; [| split].
  - intros level Hl. destruct (Z.leb_spec 10 level); [lia | reflexivity].
  - intros level Hl. destruct (Z.leb_spec 10 level); [| lia].
    rewrite List.filter_app. cbn [List.filter h_level].
    destruct (Z.leb_spec 30 level), (Z.leb_spec 10 level); try lia; reflexivity.
  - intros Hn level. rewrite Hn. cbn [default Datatypes.id l_level handlers app].
    change (Z.eqb 10 0) with false. cbn iota.
    destruct (Z.leb_spec 10 level); [| reflexivity].
    cbn [List.filter h_level].
    destruct (Z.leb_spec 30 level), (Z.leb_spec 10 level); try lia; reflexivity.
Qed.

End LoggingFacts.

(** ** Invariants of the reporter *)

Module ReporterExtra.
Import Reporter ReporterFacts.

Lemma warned_tb (k : string) (v : pyfloat) (st : reporter) :
  tb_events (warned k v st) = tb_events st.
Proof. unfold warned. destruct (is_inf v); reflexivity. Qed.

Lemma add_entry_train_fields (k : string) (v : pyfloat) (st : reporter) :
  let st' := (add_entry false k v st).1 in
  tensorboard st' = tensorboard st /\ _step st' = _step st /\ steps st' = steps st /\
  obs_train st' = obs_train st /\ obs_dev st' = obs_dev st /\
  tb_events st' = tb_events st /\
  (obs_train_local st' = obs_train_local st \/
   exists c n lc, obs_train_local st !! c = Some lc /\
     obs_train_local st' =
       <[c := <[n := default [] (lc !! n) ++ [v]]> lc]> (obs_train_local st)).
Proof.
  cbv zeta. unfold add_entry.
  destruct (split_dot k) as [| c [| n [|]]]; try (cbn; repeat split; left; reflexivity).
  destruct (warned_fields k v st) as (Hwt & Hwl & Hwd & Hws & Hwn & Hwb & _).
  pose proof (warned_tb k v st) as Hwe.
  msimp. rewrite Hwl.
  destruct (obs_train_local st !! c) as [lc |] eqn:Hl; msimp.
  - rewrite ?Hwt, ?Hwl, ?Hwd, ?Hws, ?Hwn, ?Hwb, ?Hwe. repeat split.
    right. exists c, n, lc. split; [exact Hl |]. apply ensure_append. exact Hl.
  - rewrite ?Hwt, ?Hwl, ?Hwd, ?Hws, ?Hwn, ?Hwb, ?Hwe. repeat split. left. reflexivity.
Qed.

Lemma add_entry_eval_fields (k : string) (v : pyfloat) (st : reporter) :
  let st' := (add_entry true k v st).1 in
  tensorboard st' = tensorboard st /\ _step st' = _step st /\ steps st' = steps st /\
  obs_train_local st' = obs_train_local st /\
  ((obs_train st' = obs_train st /\ obs_dev st' = obs_dev st /\
    tb_events st' = tb_events st) \/
   (exists c n tc, obs_train st !! c = Some tc /\
      obs_train st' = ensure_name c n tc (obs_train st) /\
      obs_dev st' = obs_dev st /\ tb_events st' = tb_events st) \/
   (exists c n tc a, obs_train st !! c = Some tc /\ obs_dev st !! c = None /\
      obs_train st' = <[c := <[n := default [] (tc !! n) ++ [a]]> tc]> (obs_train st) /\
      obs_dev st' = obs_dev st /\ tb_events st' = tb_events st) \/
   (exists c n tc dc a, obs_train st !! c = Some tc /\ obs_dev st !! c = Some dc /\
      obs_train st' = <[c := <[n := default [] (tc !! n) ++ [a]]> tc]> (obs_train st) /\
      obs_dev st' = <[c := <[n := default [] (dc !! n) ++ [v]]> dc]> (obs_dev st) /\
      tb_events st' = tb_events st ++
        (if tensorboard st then [(dev_tag c n, v, _step st)] else []))).
Proof.
  cbv zeta. unfold add_entry.
  destruct (split_dot k) as [| c [| n [|]]]; try (cbn; repeat split; left; repeat split).
  destruct (warned_fields k v st) as (Hwt & Hwl & Hwd & Hws & Hwn & Hwb & _).
  pose proof (warned_tb k v st) as Hwe.
  msimp. rewrite Hwt.
  destruct (obs_train st !! c) as [tc |] eqn:Ht; msimp;
    rewrite ?Hwt, ?Hwl, ?Hwd, ?Hws, ?Hwn, ?Hwb, ?Hwe;
    [| repeat split; left; repeat split].
  destruct (ensure_lookup c n tc (obs_train st) Ht) as (tc' & Htc' & Hn').
  rewrite Htc'. msimp. rewrite Hn'. msimp. rewrite ?Hwt, ?Hwl, ?Hwd.
  destruct (obs_train_local st !! c) as [lc |] eqn:Hl; msimp;
    rewrite ?Hwt, ?Hwl, ?Hwd, ?Hws, ?Hwn, ?Hwb, ?Hwe;
    [| repeat split; right; left; exists c, n, tc; repeat split; exact Ht].
  destruct (lc !! n) as [vals |] eqn:Hn; msimp;
    rewrite ?Hwt, ?Hwl, ?Hwd, ?Hws, ?Hwn, ?Hwb, ?Hwe;
    [| repeat split; right; left; exists c, n, tc; repeat split; exact Ht].
  destruct (obs_dev st !! c) as [dc |] eqn:Hd; msimp;
    rewrite ?Hwt, ?Hwl, ?Hwd, ?Hws, ?Hwn, ?Hwb, ?Hwe.
  - destruct (tensorboard st); msimp; rewrite ?Hwt, ?Hwl, ?Hwd, ?Hws, ?Hwn, ?Hwb, ?Hwe;
      (repeat split; right; right; right;
       exists c, n, tc, dc, (np_mean vals); split; [exact Ht |]; split; [exact Hd |];
       split; [apply ensure_append; exact Ht |];
       split; [apply ensure_append; exact Hd |]);
      [reflexivity | symmetry; apply app_nil_r].
  - repeat split. right; right; left.
    exists c, n, tc, (np_mean vals). split; [exact Ht |]. split; [exact Hd |].
    split; [apply ensure_append; exact Ht |]. split; reflexivity.
Qed.

Lemma add_preserves (P : reporter -> reporter -> Prop) (is_eval : bool)
    (Hrefl : forall s, P s s)
    (Htrans : forall s1 s2 s3, P s1 s2 -> P s2 s3 -> P s1 s3)
    (Hentry : forall k v s, P s (add_entry is_eval k v s).1)
    (observation : list (string * option pyfloat)) (st : reporter) :
  P st (add observation is_eval st).1.
Proof.
  revert st. induction observation as [| [k [v |]] rest IH]; intros st; cbn [add].
  - apply Hrefl.
  - unfold mbind, M_bind.
    pose proof (Hentry k v st) as He.
    destruct (add_entry is_eval k v st) as [s1 [[] | e]]; cbn in *.
    + exact (Htrans _ _ _ He (IH s1)).
    + exact He.
  - apply IH.
Qed.

Lemma run_calls_preserves (I : reporter -> Prop)
    (Hadd : forall observation is_eval s, I s -> I (add observation is_eval s).1)
    (Hstep : forall is_eval s, I s -> I (step is_eval s).1)
    (cls : list call) (st : reporter) :
  I st -> I (run_calls cls st).
Proof.
  revert st. induction cls as [| [observation is_eval | is_eval] cls IH];
    intros st H; cbn [run_calls run_call].
  - exact H.
  - apply IH, Hadd, H.
  - apply IH, Hstep, H.
Qed.

Lemma series_update (d : obs) (c c' n n' : string) (m : gmap string (list pyfloat))
    (l : list pyfloat) :
  d !! c = Some m ->
  series (<[c := <[n := l]> m]> d) c' n' =
  if decide (c = c' /\ n = n') then Some l else series d c' n'.
Proof.
  intros Hd. unfold series.
  destruct (decide (c = c')) as [<- |].
  - rewrite lookup_insert_eq, Hd. cbn.
    destruct (decide (n = n')) as [<- |].
    + rewrite decide_True by auto. apply lookup_insert_eq.
    + rewrite decide_False by (intros [_ ?]; contradiction).
      apply lookup_insert_ne. exact n0.
  - rewrite decide_False by (intros [? _]; contradiction).
    rewrite lookup_insert_ne by exact n0. reflexivity.
Qed.

Lemma series_at (d : obs) (c n : string) (m : gmap string (list pyfloat)) :
  d !! c = Some m -> series d c n = m !! n.
Proof. intros Hd. unfold series. rewrite Hd. reflexivity. Qed.

Lemma aligned_ensure (train dev : obs) (c n : string) (tc : gmap string (list pyfloat)) :
  train !! c = Some tc -> aligned train dev -> aligned (ensure_name c n tc train) dev.
Proof.
  intros Ht Hal. unfold ensure_name. destruct (tc !! n) eqn:Hn; [exact Hal |].
  intros c' n'. rewrite (series_update train c c' n n' tc [] Ht).
  destruct (decide (c = c' /\ n = n')) as [[<- <-] |]; [| apply Hal].
  specialize (Hal c n). rewrite (series_at train c n tc Ht), Hn in Hal.
  destruct (series dev c n); [contradiction | reflexivity].
Qed.

Lemma aligned_update (train dev : obs) (c n : string)
    (tc dc : gmap string (list pyfloat)) (a b : pyfloat) :
  train !! c = Some tc -> dev !! c = Some dc -> aligned train dev ->
  aligned (<[c := <[n := default [] (tc !! n) ++ [a]]> tc]> train)
          (<[c := <[n := default [] (dc !! n) ++ [b]]> dc]> dev).
Proof.
  intros Ht Hd Hal c' n'.
  rewrite (series_update train c c' n n' tc _ Ht), (series_update dev c c' n n' dc _ Hd).
  destruct (decide (c = c' /\ n = n')) as [[<- <-] |]; [| apply Hal].
  specialize (Hal c n). rewrite (series_at train c n tc Ht), (series_at dev c n dc Hd) in Hal.
  rewrite !length_app.
  destruct (tc !! n), (dc !! n); cbn in *; try contradiction; subst; cbn; lia.
Qed.

Lemma same_categories_insert (d : obs) (c : string) (x : gmap string (list pyfloat)) :
  same_categories d -> is_Some (d !! c) -> same_categories (<[c := x]> d).
Proof.
  intros Hs Hc c'. destruct (decide (c = c')) as [<- |].
  - rewrite lookup_insert_eq. split; intros _; [apply Hs, Hc | eauto].
  - rewrite lookup_insert_ne by assumption. apply Hs.
Qed.

Lemma same_categories_ensure (d : obs) (c n : string) (m : gmap string (list pyfloat)) :
  same_categories d -> d !! c = Some m -> same_categories (ensure_name c n m d).
Proof.
  intros Hs Hd. unfold ensure_name. destruct (m !! n); [exact Hs |].
  apply same_categories_insert; [exact Hs | eauto].
Qed.

Lemma same_categories_transfer (d d' : obs) (c : string) :
  same_categories d -> same_categories d' -> is_Some (d !! c) -> is_Some (d' !! c).
Proof. intros Hs Hs' Hc. apply Hs', Hs, Hc. Qed.

Lemma add_entry_obs_inv (is_eval : bool) (k : string) (v : pyfloat) (st : reporter) :
  obs_inv st -> obs_inv (add_entry is_eval k v st).1.
Proof.
  intros (Ht & Hl & Hd & Hal). destruct is_eval.
  - destruct (add_entry_eval_fields k v st) as (_ & _ & _ & El & E).
    unfold obs_inv. rewrite El.
    destruct E as [(Et & Ed & _) | [(c & n & tc & Htc & Et & Ed & _) |
                  [(c & n & tc & a & Htc & Hdc & _) |
                   (c & n & tc & dc & a & Htc & Hdc & Et & Ed & _)]]].
    + rewrite Et, Ed. exact (conj Ht (conj Hl (conj Hd Hal))).
    + rewrite Et, Ed. split; [| split; [| split]]; [apply same_categories_ensure; assumption | assumption
        | assumption | apply aligned_ensure; assumption].
    + exfalso. destruct (same_categories_transfer _ _ c Ht Hd ltac:(eauto)) as [? Hx].
      congruence.
    + rewrite Et, Ed. split; [| split; [| split]]; [apply same_categories_insert; [assumption | eauto]
        | assumption | apply same_categories_insert; [assumption | eauto]
        | apply aligned_update; assumption].
  - destruct (add_entry_train_fields k v st) as (_ & _ & _ & Et & Ed & _ & El).
    unfold obs_inv. rewrite Et, Ed. split; [exact Ht | split; [| split; [exact Hd | exact Hal]]].
    destruct El as [-> | (c & n & lc & Hlc & ->)]; [assumption |].
    apply same_categories_insert; [assumption | eauto].
Qed.

Lemma same_categories_empty : same_categories empty_obs.
Proof. intros c. reflexivity. Qed.

Lemma obs_inv_init (tb : bool) : obs_inv (init tb).
Proof.
  unfold obs_inv. cbn. split; [| split; [| split]]; try apply same_categories_empty.
  intros c n. unfold series. destruct (empty_obs !! c) as [m |] eqn:E; [| reflexivity].
  cbn. assert (m = ∅) as ->.
  { unfold empty_obs in E.
    destruct (decide (c = "loss")) as [-> |]; [rewrite lookup_insert_eq in E; congruence |].
    rewrite lookup_insert_ne in E by congruence.
    destruct (decide (c = "acc")) as [-> |]; [rewrite lookup_insert_eq in E; congruence |].
    rewrite lookup_insert_ne in E by congruence.
    destruct (decide (c = "ppl")) as [-> |]; [rewrite lookup_insert_eq in E; congruence |].
    rewrite lookup_insert_ne, lookup_empty in E by congruence. discriminate. }
  rewrite lookup_empty. reflexivity.
Qed.

(** Whatever sequence of [add] and [step] calls is made on a new
    [Reporter] (returning or raising), each of [obs_train],
    [obs_train_local] and [obs_dev] keeps exactly the categories loss,
    acc and ppl, and every metric's train history in [obs_train] is as
    long as its dev history in [obs_dev] (a metric with no dev history
    has an empty train history). *)
Theorem reporter_histories_aligned (tb : bool) (cls : list call) :
  let st := run_calls cls (init tb) in
  same_categories (obs_train st) /\ same_categories (obs_train_local st) /\
  same_categories (obs_dev st) /\ aligned (obs_train st) (obs_dev st).
Proof.
  cbv zeta. apply (run_calls_preserves obs_inv); [| | apply obs_inv_init].
  - intros observation is_eval s Hs.
    refine (add_preserves (fun s s' => obs_inv s -> obs_inv s') is_eval _ _ _
              observation s Hs); auto.
    intros k v s0. exact (add_entry_obs_inv is_eval k v s0).
  - intros is_eval s (Ht & Hl & Hd & Hal). unfold obs_inv. cbn.
    split; [exact Ht | split; [| split; [exact Hd | exact Hal]]].
    destruct is_eval; [apply same_categories_empty | exact Hl].
Qed.

Lemma add_clock (observation : list (string * option pyfloat)) (is_eval : bool)
    (st : reporter) :
  let st' := (add observation is_eval st).1 in
  _step st' = _step st /\ steps st' = steps st /\ tensorboard st' = tensorboard st.
Proof.
  apply (add_preserves (fun s s' => _step s' = _step s /\ steps s' = steps s /\
                                    tensorboard s' = tensorboard s)).
  - intros s. auto.
  - intros s1 s2 s3 (A1 & B1 & C1) (A2 & B2 & C2). repeat split; congruence.
  - intros k v s. destruct is_eval.
    + destruct (add_entry_eval_fields k v s) as (A & B & C & _). auto.
    + destruct (add_entry_train_fields k v s) as (A & B & C & _). auto.
Qed.

Lemma sorted_snoc (l : list Z) (x : Z) :
  Sorted Z.lt l -> Forall (fun s => (s < x)%Z) l -> Sorted Z.lt (l ++ [x]).
Proof.
  induction l as [| a l IH]; intros Hs Hf; cbn.
  - constructor; constructor.
  - inversion Hs as [| ? ? Hs' Hh]; subst. inversion Hf as [| ? ? Ha Hf']; subst.
    constructor; [apply IH; assumption |].
    destruct l as [| b l]; cbn; constructor; [exact Ha |].
    inversion Hh; assumption.
Qed.

(** Along any sequence of [add] and [step] calls on a new [Reporter],
    [_step] counts the [step] calls, [steps] has one entry per
    [step(True)] call, and [steps] is strictly increasing with every
    entry between 1 and [_step]. *)
Theorem reporter_steps_increasing (tb : bool) (cls : list call) :
  let st := run_calls cls (init tb) in
  _step st = Z.of_nat (length (List.filter
                (fun cl => match cl with CallStep _ => true | _ => false end) cls)) /\
  length (steps st) = length (List.filter
                (fun cl => match cl with CallStep true => true | _ => false end) cls) /\
  Sorted Z.lt (steps st) /\ Forall (fun s => (0 < s <= _step st)%Z) (steps st).
Proof.
  cbv zeta.
  assert (H : forall st, (0 <= _step st)%Z -> Sorted Z.lt (steps st) ->
            Forall (fun s => (0 < s <= _step st)%Z) (steps st) ->
            let st' := run_calls cls st in
            _step st' = (_step st + Z.of_nat (length (List.filter
                (fun cl => match cl with CallStep _ => true | _ => false end) cls)))%Z /\
            length (steps st') = (length (steps st) + length (List.filter
                (fun cl => match cl with CallStep true => true | _ => false end) cls))%nat /\
            Sorted Z.lt (steps st') /\ Forall (fun s => (0 < s <= _step st')%Z) (steps st')).
  { induction cls as [| [observation is_eval | is_eval] cls IH];
      intros st Hn Hs Hf; cbv zeta; cbn [run_calls run_call List.filter length].
    - repeat split; [lia | lia | exact Hs | exact Hf].
    - destruct (add_clock observation is_eval st) as (A & B & _).
      rewrite <- A, <- B in *. apply IH; assumption.
    - rewrite step_state. cbn [fst _step steps].
      destruct (IH {| tensorboard := tensorboard st; _step := (_step st + 1)%Z;
                      obs_train := obs_train st;
                      obs_train_local := if is_eval then empty_obs else obs_train_local st;
                      obs_dev := obs_dev st;
                      steps := if is_eval then steps st ++ [(_step st + 1)%Z] else steps st;
                      log := log st; tb_events := tb_events st |}) as (A & B & C & D);
        cbn [_step steps] in *.
      + lia.
      + destruct is_eval; [| exact Hs]. apply sorted_snoc; [exact Hs |].
        eapply Forall_impl; [exact Hf | cbn; intros; lia].
      + destruct is_eval; [rewrite Forall_app; split |];
          (eapply Forall_impl; [exact Hf | cbn; intros; lia]) || (repeat constructor; lia).
      + destruct is_eval; cbn [length]; rewrite ?length_app in B; cbn [length] in B;
          (split; [rewrite A; lia | split; [lia | split; assumption]]). }
  destruct (H (init tb)) as (A & B & C & D); cbn [_step steps init length] in *;
    [lia | constructor | constructor | ].
  split; [lia | split; [lia | split; assumption]].
Qed.

Lemma add_entry_tb_inv (is_eval : bool) (k : string) (v : pyfloat) (st : reporter) :
  (0 <= _step st)%Z -> tb_inv st -> tb_inv (add_entry is_eval k v st).1.
Proof.
  intros Hn (Hoff & Hf). unfold tb_inv. destruct is_eval.
  - destruct (add_entry_eval_fields k v st) as (Eb & En & _ & _ & E).
    rewrite Eb, En.
    destruct E as [(_ & _ & Ee) | [(c & n & tc & _ & _ & _ & Ee) |
                  [(c & n & tc & a & _ & _ & _ & _ & Ee) |
                   (c & n & tc & dc & a & _ & _ & _ & _ & Ee)]]];
      rewrite Ee; try (split; assumption).
    destruct (tensorboard st) eqn:Hb.
    + split; [discriminate |]. rewrite Forall_app. split; [exact Hf |].
      constructor; [| constructor]. cbn. split; [eauto | lia].
    + rewrite app_nil_r. split; assumption.
  - destruct (add_entry_train_fields k v st) as (Eb & En & _ & _ & _ & Ee & _).
    rewrite Eb, En, Ee. split; assumption.
Qed.

(** Whatever sequence of [add] and [step] calls is made on a new
    [Reporter], every TensorBoard scalar it has written has a tag
    [dev/<category>/<name>] (never a [train/...] tag) and a step between
    0 and the current [_step]; with [tensorboard=False] nothing is
    written. *)
Theorem reporter_tensorboard_dev_only (tb : bool) (cls : list call) :
  let st := run_calls cls (init tb) in
  (tb = false -> tb_events st = []) /\
  Forall (fun ev => (exists c n, ev.1.1 = dev_tag c n) /\ (0 <= ev.2 <= _step st)%Z)
    (tb_events st).
Proof.
  cbv zeta.
  assert (Htb : forall s, tensorboard (run_calls cls s) = tensorboard s).
  { induction cls as [| [observation is_eval | is_eval] cls IH]; intros s;
      cbn [run_calls run_call]; [reflexivity | |].
    - rewrite IH. apply add_clock.
    - rewrite IH. reflexivity. }
  assert (H : (0 <= _step (run_calls cls (init tb)))%Z /\ tb_inv (run_calls cls (init tb))).
  { apply (run_calls_preserves (fun s => (0 <= _step s)%Z /\ tb_inv s)).
    - intros observation is_eval s (Hn & Hi).
      refine (add_preserves (fun s s' => (0 <= _step s)%Z -> tb_inv s ->
                                          (0 <= _step s')%Z /\ tb_inv s')
                            is_eval _ _ _ observation s Hn Hi).
      + intros s0 H0 H1. split; assumption.
      + intros s1 s2 s3 H12 H23 H0 H1. destruct (H12 H0 H1). auto.
      + intros k v s0 H0 H1. split.
        * destruct is_eval; [destruct (add_entry_eval_fields k v s0) as (_ & A' & _)
                             | destruct (add_entry_train_fields k v s0) as (_ & A' & _)];
            rewrite A'; exact H0.
        * apply add_entry_tb_inv; assumption.
    - intros is_eval s (Hn & Hoff & Hf). rewrite step_state. cbn. split; [lia |]. split.
      + exact Hoff.
      + eapply Forall_impl; [exact Hf | cbn; intros ev [? ?]; split; [assumption | lia]].
    - cbn. split; [lia |]. split; [reflexivity | constructor]. }
  destruct H as (_ & Hoff & Hf). split; [| exact Hf].
  intros Hb. apply Hoff. rewrite Htb. exact Hb.
Qed.

(** [add(observation, False)] (training) leaves [obs_train], [obs_dev],
    [steps], [_step] and the TensorBoard writer untouched, whether it
    returns or raises; [add(observation, True)] (evaluation) leaves the
    local training buffer [obs_train_local] untouched. *)
Theorem add_mode_frame (observation : list (string * option pyfloat)) (st : reporter) :
  let st' := (add observation false st).1 in
  let st'' := (add observation true st).1 in
  obs_train st' = obs_train st /\ obs_dev st' = obs_dev st /\
  tb_events st' = tb_events st /\ steps st' = steps st /\ _step st' = _step st /\
  obs_train_local st'' = obs_train_local st.
Proof.
  cbv zeta.
  assert (T : let st' := (add observation false st).1 in
              obs_train st' = obs_train st /\ obs_dev st' = obs_dev st /\
              tb_events st' = tb_events st /\ steps st' = steps st /\ _step st' = _step st).
  { apply (add_preserves (fun s s' => obs_train s' = obs_train s /\ obs_dev s' = obs_dev s /\
             tb_events s' = tb_events s /\ steps s' = steps s /\ _step s' = _step s)).
    + intros s. auto.
    + intros s1 s2 s3 (A1 & B1 & C1 & D1 & E1) (A2 & B2 & C2 & D2 & E2).
      repeat split; congruence.
    + intros k v s. destruct (add_entry_train_fields k v s) as (_ & N & S & T & D & E & _).
      auto. }
  assert (L : obs_train_local (add observation true st).1 = obs_train_local st).
  { apply (add_preserves (fun s s' => obs_train_local s' = obs_train_local s)).
    + reflexivity.
    + intros s1 s2 s3 A B. congruence.
    + intros k v s. apply add_entry_eval_fields. }
  destruct T as (A & B & C & D & E). repeat split; assumption.
Qed.

End ReporterExtra.
